(** * spotify-datawarehouse: the ETL runners and the Redshift lifecycle tool

    A shallow embedding of [sql_queries.py], [etl.py], [create_tables.py]
    and [redshift_iac.py].  The Python scripts talk to three outside
    parties (a SQL connection, the AWS control plane and an HTTP service);
    each is a record of operations over an abstract state, and the Python
    functions become state-passing computations that may raise. *)

From Stdlib Require Import String Ascii List ZArith Bool Lia.
Import ListNotations.
Open Scope string_scope.

(** ** Python exceptions and computations that may raise *)

(** The exception classes the scripts can meet.  All of them derive from
    Python's [Exception]; only [RequestException] is caught by class. *)
Inductive exn : Type :=
| ClientError (code message : string)     (* botocore.exceptions.ClientError *)
| RequestException (message : string)     (* requests.exceptions.RequestException *)
| KeyError (key : string)
| IndexError
| TypeError (message : string)
| UnboundLocalError (name : string)
| PyException (message : string)          (* raise Exception("...") *)
| DatabaseError (message : string).       (* psycopg2.Error *)

Inductive result (A : Type) : Type :=
| Ok (a : A)
| Raise (e : exn).
Arguments Ok {A} a.
Arguments Raise {A} e.

Definition is_raise {A} (r : result A) : bool :=
  match r with Ok _ => false | Raise _ => true end.

(** A computation over a world [W]: the outcome and the world it leaves. *)
Definition M (W A : Type) : Type := W -> result A * W.

Definition ret {W A} (a : A) : M W A := fun w => (Ok a, w).

Definition raise {W A} (e : exn) : M W A := fun w => (Raise e, w).

Definition bind {W A B} (m : M W A) (k : A -> M W B) : M W B :=
  fun w => match m w with
           | (Ok a, w') => k a w'
           | (Raise e, w') => (Raise e, w')
           end.

(** [try: m except (catches) as e: h e] *)
Definition try_except {W A} (m : M W A) (catches : exn -> bool)
    (h : exn -> M W A) : M W A :=
  fun w => match m w with
           | (Ok a, w') => (Ok a, w')
           | (Raise e, w') => if catches e then h e w' else (Raise e, w')
           end.

(** [except Exception] catches every class above. *)
Definition any_Exception (e : exn) : bool := true.

Definition is_RequestException (e : exn) : bool :=
  match e with RequestException _ => true | _ => false end.

Declare Scope py_scope.
Delimit Scope py_scope with py.
Notation "x <- m ;; k" := (bind m (fun x => k))
  (at level 61, m at next level, right associativity) : py_scope.
Notation "m ;; k" := (bind m (fun _ => k))
  (at level 61, right associativity) : py_scope.

(** [for x in xs: body x] *)
Fixpoint for_each {W A} (xs : list A) (body : A -> M W unit) : M W unit :=
  match xs with
  | [] => ret tt
  | x :: rest => bind (body x) (fun _ => for_each rest body)
  end.

(** ** sql_queries.py *)

Module SqlQueries.

Definition nl : string := String (ascii_of_nat 10) EmptyString.

Definition staging_events_table_drop := "DROP TABLE IF EXISTS staging_events".
Definition staging_songs_table_drop := "DROP TABLE IF EXISTS staging_songs".
Definition songplay_table_drop := "DROP TABLE IF EXISTS songplays".
Definition user_table_drop := "DROP TABLE IF EXISTS users".
Definition song_table_drop := "DROP TABLE IF EXISTS songs".
Definition artist_table_drop := "DROP TABLE IF EXISTS artists".
Definition time_table_drop := "DROP TABLE IF EXISTS time".

Definition staging_events_table_create := "
        CREATE TABLE IF NOT EXISTS staging_events (
            artist VARCHAR,
            auth VARCHAR,
            firstName VARCHAR,
            gender CHAR,
            itemInSession INT,
            lastName VARCHAR,
            length NUMERIC,
            level VARCHAR,
            location VARCHAR,
            method VARCHAR,
            page VARCHAR,
            registration VARCHAR,
            sessionId BIGINT,
            song VARCHAR,
            status INT,
            ts TIMESTAMP,
            userAgent VARCHAR,
            userId BIGINT
        )
".

Definition staging_songs_table_create := "
        CREATE TABLE IF NOT EXISTS staging_songs (
            num_songs INT,
            artist_id VARCHAR,
            artist_latitude FLOAT,
            artist_longitude FLOAT,
            artist_location VARCHAR,
            artist_name VARCHAR,
            song_id VARCHAR,
            title VARCHAR,
            duration NUMERIC,
            year INT
        )
".

Definition songplay_table_create := "
        CREATE TABLE IF NOT EXISTS songplays (
            songplay_id BIGINT IDENTITY (0,1) PRIMARY KEY,
            start_time TIMESTAMP NOT NULL REFERENCES time,
            user_id BIGINT NOT NULL REFERENCES users,
            level VARCHAR (4) NOT NULL,
            song_id VARCHAR REFERENCES songs,
            artist_id VARCHAR REFERENCES artists,
            session_id INT,
            location VARCHAR,
            user_agent VARCHAR);
".

Definition user_table_create := "
        CREATE TABLE IF NOT EXISTS users (user_id BIGINT PRIMARY KEY,
                                          first_name VARCHAR NOT NULL,
                                          last_name VARCHAR NOT NULL,
                                          gender CHAR NOT NULL,
                                          level VARCHAR (4) NOT NULL);
".

Definition song_table_create := "
        CREATE TABLE IF NOT EXISTS songs (song_id VARCHAR PRIMARY KEY,
                                          title VARCHAR NOT NULL,
                                          artist_id VARCHAR,
                                          year INT,
                                          duration NUMERIC NOT NULL);
".

Definition artist_table_create := "
        CREATE TABLE IF NOT EXISTS artists (artist_id VARCHAR PRIMARY KEY,
                                            name VARCHAR NOT NULL,
                                            location VARCHAR,
                                            latitude FLOAT,
                                            longitude FLOAT);
".

Definition time_table_create := "
        CREATE TABLE IF NOT EXISTS time (start_time TIMESTAMP PRIMARY KEY,
                                         hour INT,
                                         day INT,
                                         week INT,
                                         month INT,
                                         year INT,
                                         weekday INT);
".

(** The values [sql_queries.py] reads from [dwh.cfg] when it is imported. *)
Record S3Config : Type := {
  LOG_DATA : string;
  LOG_JSONPATH : string;
  SONG_DATA : string;
  ARN : string
}.

(** [("...{}...{}...{}...").format(LOG_DATA, ARN, LOG_JSONPATH)] *)
Definition staging_events_copy (c : S3Config) : string :=
  nl ++ "        COPY staging_events FROM " ++ LOG_DATA c ++ nl ++
  "        credentials 'aws_iam_role=" ++ ARN c ++ "'" ++ nl ++
  "        JSON " ++ LOG_JSONPATH c ++ " compupdate off" ++ nl ++
  "        region 'us-west-2'" ++ nl ++
  "        timeformat as 'epochmillisecs';" ++ nl.

Definition staging_songs_copy (c : S3Config) : string :=
  nl ++ "        COPY staging_songs FROM " ++ SONG_DATA c ++ nl ++
  "        credentials 'aws_iam_role=" ++ ARN c ++ "'" ++ nl ++
  "        JSON 'auto' truncatecolumns compupdate off" ++ nl ++
  "        region 'us-west-2';" ++ nl.

Definition songplay_table_insert := "
        INSERT INTO songplays (start_time, user_id, level, song_id, artist_id,
                               session_id, location, user_agent)
        SELECT e.ts AS start_time,
               e.userId AS user_id,
               e.level,
               s.song_id AS song_id,
               s.artist_id AS artist_id,
               e.sessionId AS session_id,
               e.location,
               e.userAgent AS user_agent
        FROM staging_events e
        JOIN staging_songs s ON e.artist = s.artist_name
        AND e.length = s.duration
        AND e.song = s.title
".

Definition user_table_insert := "
        INSERT INTO users (user_id, first_name, last_name, gender, level)
        SELECT DISTINCT userId AS user_id,
               firstName AS first_name,
               lastName AS last_name,
               gender,
               level
        FROM staging_events
        WHERE page = 'NextSong'
        AND user_id IS NOT null
        AND ts = (SELECT max(ts) FROM staging_events WHERE user_id = userId);
".

Definition song_table_insert := "
        INSERT INTO songs (song_id, title, artist_id, year, duration)
        SELECT DISTINCT song_id,
               title,
               artist_id,
               year,
               duration
        FROM staging_songs
".

Definition artist_table_insert := "
        INSERT INTO artists (artist_id, name, location, latitude, longitude)
        SELECT DISTINCT artist_id,
               artist_name AS name,
               artist_location AS location,
               artist_latitude AS latitude,
               artist_longitude AS longitude
        FROM staging_songs
".

Definition time_table_insert := "
        INSERT INTO time (start_time, hour, day, week, month, year, weekday)
        SELECT DISTINCT ts AS start_time,
               EXTRACT(hour FROM start_time) AS hour,
               EXTRACT(day FROM start_time) AS day,
               EXTRACT(week FROM start_time) AS week,
               EXTRACT(month FROM start_time) AS month,
               EXTRACT(year FROM start_time) AS year,
               EXTRACT(DOW FROM start_time) AS weekday
        FROM staging_events
".

Definition create_table_queries : list string := [
  staging_events_table_create;
  staging_songs_table_create;
  user_table_create;
  song_table_create;
  artist_table_create;
  time_table_create;
  songplay_table_create
].

Definition drop_table_queries : list string := [
  staging_events_table_drop;
  staging_songs_table_drop;
  songplay_table_drop;
  user_table_drop;
  song_table_drop;
  artist_table_drop;
  time_table_drop
].

Definition copy_table_queries (c : S3Config) : list string :=
  [staging_events_copy c; staging_songs_copy c].

Definition insert_table_queries : list string := [
  songplay_table_insert;
  user_table_insert;
  song_table_insert;
  artist_table_insert;
  time_table_insert
].

End SqlQueries.

(** ** The SQL connection shared by etl.py and create_tables.py *)

Module Db.

(** What psycopg2 gives the scripts: a cursor that executes one statement
    and a connection that commits, both over the same session state [S].
    Either call may raise. *)
Record Connection (S : Type) : Type := {
  cur_execute : string -> S -> result unit * S;
  conn_commit : S -> result unit * S
}.
Arguments cur_execute {S} _ _ _.
Arguments conn_commit {S} _ _.

(** The calls a script has issued on its connection, oldest first. *)
Inductive db_call : Type :=
| Execute (query : string)
| Commit.

Record World (S : Type) : Type := {
  calls : list db_call;
  session : S
}.
Arguments calls {S} _.
Arguments session {S} _.
Arguments Build_World {S} _ _.

Definition start {S} (s : S) : World S := {| calls := []; session := s |}.

Section Calls.
Context {S : Type} (conn : Connection S).

(** [cur.execute(query)] *)
Definition execute (query : string) : M (World S) unit :=
  fun w =>
    let (r, s') := cur_execute conn query (session w) in
    (r, {| calls := calls w ++ [Execute query]; session := s' |}).

(** [conn.commit()] *)
Definition commit : M (World S) unit :=
  fun w =>
    let (r, s') := conn_commit conn (session w) in
    (r, {| calls := calls w ++ [Commit]; session := s' |}).
End Calls.

End Db.

(** ** etl.py *)

Module Etl.
Import SqlQueries Db.
Local Open Scope py_scope.

Section Runners.
Context {S : Type} (conn : Connection S).

Definition load_staging_tables (cfg : S3Config) : M (World S) unit :=
  for_each (copy_table_queries cfg) (fun query =>
    execute conn query ;;
    commit conn).

Definition insert_tables : M (World S) unit :=
  for_each insert_table_queries (fun query =>
    execute conn query ;;
    commit conn).
End Runners.

End Etl.

(** ** create_tables.py *)

Module CreateTables.
Import SqlQueries Db.
Local Open Scope py_scope.

Section Runners.
Context {S : Type} (conn : Connection S).

Definition drop_tables : M (World S) unit :=
  for_each drop_table_queries (fun query =>
    execute conn query ;;
    commit conn).

Definition create_tables : M (World S) unit :=
  for_each create_table_queries (fun query =>
    execute conn query ;;
    commit conn).
End Runners.

End CreateTables.

(** ** Reading the statements: which table a statement writes or references *)

Module SqlText.

Definition is_space (c : ascii) : bool :=
  let n := nat_of_ascii c in
  Nat.eqb n 32 || Nat.eqb n 10 || Nat.eqb n 9 || Nat.eqb n 13.

Definition is_ident_char (c : ascii) : bool :=
  let n := nat_of_ascii c in
  (Nat.leb 97 n && Nat.leb n 122) || (Nat.leb 65 n && Nat.leb n 90)
  || (Nat.leb 48 n && Nat.leb n 57) || Nat.eqb n 95.

Fixpoint skip_spaces (s : string) : string :=
  match s with
  | String c rest => if is_space c then skip_spaces rest else s
  | EmptyString => s
  end.

Fixpoint strip_prefix (p s : string) : option string :=
  match p, s with
  | EmptyString, _ => Some s
  | String a p', String b s' =>
      if Ascii.eqb a b then strip_prefix p' s' else None
  | String _ _, EmptyString => None
  end.

Fixpoint take_ident (s : string) : string :=
  match s with
  | String c rest =>
      if is_ident_char c then String c (take_ident rest) else EmptyString
  | EmptyString => EmptyString
  end.

(** The table named after the leading [INSERT INTO] of a statement. *)
Definition insert_target (query : string) : option string :=
  match strip_prefix "INSERT INTO " (skip_spaces query) with
  | Some rest => Some (take_ident rest)
  | None => None
  end.

(** The tables named after each [REFERENCES] of a CREATE TABLE statement,
    in the order of the text. *)
Fixpoint references_of (ddl : string) : list string :=
  match ddl with
  | EmptyString => []
  | String _ rest =>
      match strip_prefix "REFERENCES " ddl with
      | Some after => take_ident after :: references_of rest
      | None => references_of rest
      end
  end.

(** The statements of a call log, in the order they were executed. *)
Fixpoint executed (log : list Db.db_call) : list string :=
  match log with
  | [] => []
  | Db.Execute q :: rest => q :: executed rest
  | Db.Commit :: rest => executed rest
  end.

(** The call log of a runner that gets through all of [queries]. *)
Definition each_committed (queries : list string) : list Db.db_call :=
  flat_map (fun q => [Db.Execute q; Db.Commit]) queries.

End SqlText.

(** ** What the INSERT into songplays means

    The tables the transform stage reads and writes, with the columns of the
    CREATE TABLE statements, and the meaning of [songplay_table_insert] as a
    function on them.  A column value is [None] when it is NULL. *)

Module Warehouse.
Import SqlQueries.

(** A FLOAT column holds an IEEE double; the 64 bits are kept as they are. *)
Inductive sql_float : Type := Float64 (bits : Z).

(** NUMERIC without precision is NUMERIC(18,0): an integer.  TIMESTAMP is
    kept as the epoch milliseconds the COPY was given. *)
Record staging_event : Type := {
  artist : option string;
  auth : option string;
  firstName : option string;
  gender : option string;
  itemInSession : option Z;
  lastName : option string;
  length : option Z;
  level : option string;
  location : option string;
  method : option string;
  page : option string;
  registration : option string;
  sessionId : option Z;
  song : option string;
  status : option Z;
  ts : option Z;
  userAgent : option string;
  userId : option Z
}.

Record staging_song : Type := {
  num_songs : option Z;
  artist_id : option string;
  artist_latitude : option sql_float;
  artist_longitude : option sql_float;
  artist_location : option string;
  artist_name : option string;
  song_id : option string;
  title : option string;
  duration : option Z;
  year : option Z
}.

(** The eight columns the INSERT lists; [songplay_id] is generated. *)
Record songplay : Type := {
  sp_start_time : option Z;
  sp_user_id : option Z;
  sp_level : option string;
  sp_song_id : option string;
  sp_artist_id : option string;
  sp_session_id : option Z;
  sp_location : option string;
  sp_user_agent : option string
}.

(** The database: both staging tables, the fact table with the next value of
    its IDENTITY (0,1) column, and the four dimension tables [D], which the
    statements modelled in detail here never touch. *)
Record Database (D : Type) : Type := {
  staging_events : list staging_event;
  staging_songs : list staging_song;
  songplays : list (Z * songplay);
  songplays_identity : Z;
  dimensions : D
}.
Arguments staging_events {D} _.
Arguments staging_songs {D} _.
Arguments songplays {D} _.
Arguments songplays_identity {D} _.
Arguments dimensions {D} _.
Arguments Build_Database {D} _ _ _ _ _.

(** SQL [=] in a join condition: true only for two equal non-NULL values. *)
Definition sql_eq {A} (eqb : A -> A -> bool) (x y : option A) : bool :=
  match x, y with
  | Some a, Some b => eqb a b
  | _, _ => false
  end.

(** [ON e.artist = s.artist_name AND e.length = s.duration
       AND e.song = s.title] *)
Definition join_on (e : staging_event) (s : staging_song) : bool :=
  sql_eq String.eqb (artist e) (artist_name s)
  && sql_eq Z.eqb (length e) (duration s)
  && sql_eq String.eqb (song e) (title s).

(** [FROM staging_events e JOIN staging_songs s ON ...]: the pairs of rows
    that satisfy the condition. *)
Definition songplay_join (events : list staging_event)
    (songs : list staging_song) : list (staging_event * staging_song) :=
  flat_map (fun e => map (pair e) (filter (join_on e) songs)) events.

(** The SELECT list. *)
Definition songplay_select (es : staging_event * staging_song) : songplay :=
  let (e, s) := es in
  {| sp_start_time := ts e;
     sp_user_id := userId e;
     sp_level := level e;
     sp_song_id := song_id s;
     sp_artist_id := artist_id s;
     sp_session_id := sessionId e;
     sp_location := location e;
     sp_user_agent := userAgent e |}.

Definition is_some {A} (x : option A) : bool :=
  match x with Some _ => true | None => false end.

Definition fits_int4 (x : option Z) : bool :=
  match x with
  | Some n => (Z.leb (- 2147483648) n && Z.leb n 2147483647)%Z
  | None => true
  end.

(** The column constraints of [songplay_table_create] that the engine
    enforces on a new row: the three NOT NULL columns, VARCHAR (4) and the
    INT range of session_id. *)
Definition songplay_accepted (r : songplay) : bool :=
  is_some (sp_start_time r)
  && is_some (sp_user_id r)
  && match sp_level r with
     | Some l => Nat.leb (String.length l) 4
     | None => false
     end
  && fits_int4 (sp_session_id r).

(** Rows get consecutive identity values from [next] on. *)
Fixpoint number_from (next : Z) (rows : list songplay) : list (Z * songplay) :=
  match rows with
  | [] => []
  | r :: rest => (next, r) :: number_from (next + 1)%Z rest
  end.

(** [songplay_table_insert]: all selected rows are appended, or, when one of
    them violates a constraint, the statement fails and changes nothing. *)
Definition run_songplay_table_insert {D} (db : Database D)
    : result unit * Database D :=
  let rows := map songplay_select
                  (songplay_join (staging_events db) (staging_songs db)) in
  if forallb songplay_accepted rows then
    (Ok tt,
     {| staging_events := staging_events db;
        staging_songs := staging_songs db;
        songplays := songplays db ++ number_from (songplays_identity db) rows;
        songplays_identity :=
          (songplays_identity db + Z.of_nat (List.length rows))%Z;
        dimensions := dimensions db |})
  else (Raise (DatabaseError "constraint violation in songplays"), db).

(** The rest of the engine.  The four dimension INSERTs read the staging
    tables and write only their own table; every other statement (DDL,
    COPY, anything unknown) is left to the engine as a whole.  A commit
    succeeds or raises and leaves the tables as the session sees them. *)
Record Engine (D : Type) : Type := {
  run_dimension_insert :
    string -> list staging_event -> list staging_song -> D -> result unit * D;
  run_other : string -> Database D -> result unit * Database D;
  run_commit : Database D -> result unit
}.
Arguments run_dimension_insert {D} _ _ _ _ _.
Arguments run_other {D} _ _ _.
Arguments run_commit {D} _ _.

Definition is_dimension_insert (query : string) : bool :=
  String.eqb query user_table_insert
  || String.eqb query song_table_insert
  || String.eqb query artist_table_insert
  || String.eqb query time_table_insert.

Definition engine_execute {D} (eng : Engine D) (query : string)
    (db : Database D) : result unit * Database D :=
  if String.eqb query songplay_table_insert then run_songplay_table_insert db
  else if is_dimension_insert query then
    let (r, d') := run_dimension_insert eng query
                     (staging_events db) (staging_songs db) (dimensions db) in
    (r, {| staging_events := staging_events db;
           staging_songs := staging_songs db;
           songplays := songplays db;
           songplays_identity := songplays_identity db;
           dimensions := d' |})
  else run_other eng query db.

(** A psycopg2 connection to such an engine. *)
Definition connect {D} (eng : Engine D) : Db.Connection (Database D) :=
  {| Db.cur_execute := engine_execute eng;
     Db.conn_commit := fun db => (run_commit eng db, db) |}.

End Warehouse.

(** ** Python values that cross the AWS interface *)

Module Py.

(** The JSON-like values boto3 returns and the scripts index into. *)
#[local] Unset Elimination Schemes.
Inductive pyval : Type :=
| PNone
| PBool (b : bool)
| PInt (n : Z)
| PStr (s : string)
| PList (items : list pyval)
| PDict (items : list (string * pyval)).
#[local] Set Elimination Schemes.

Fixpoint lookup {A} (key : string) (items : list (string * A)) : option A :=
  match items with
  | [] => None
  | (k, v) :: rest => if String.eqb k key then Some v else lookup key rest
  end.

(** [v[key]] for a string key. *)
Definition getitem (v : pyval) (key : string) : result pyval :=
  match v with
  | PDict items =>
      match lookup key items with
      | Some x => Ok x
      | None => Raise (KeyError key)
      end
  | PList _ => Raise (TypeError "list indices must be integers or slices")
  | _ => Raise (TypeError "object is not subscriptable")
  end.

(** [v[i]] for a literal index [i >= 0]. *)
Definition getindex (v : pyval) (i : nat) : result pyval :=
  match v with
  | PList items =>
      match nth_error items i with
      | Some x => Ok x
      | None => Raise IndexError
      end
  | PDict _ => Raise (KeyError "<int>")
  | _ => Raise (TypeError "object is not subscriptable")
  end.

(** [v == "literal"] *)
Definition eq_str (v : pyval) (literal : string) : bool :=
  match v with
  | PStr s => String.eqb s literal
  | _ => false
  end.

(** [if s:] for a value that is a [str] or [None]. *)
Definition truthy (s : option string) : bool :=
  match s with
  | Some t => negb (String.eqb t "")
  | None => false
  end.

Definition is_py_space (c : ascii) : bool :=
  let n := nat_of_ascii c in
  Nat.eqb n 32 || (Nat.leb 9 n && Nat.leb n 13) || (Nat.leb 28 n && Nat.leb n 31).

Fixpoint lstrip (s : string) : string :=
  match s with
  | String c rest => if is_py_space c then lstrip rest else s
  | EmptyString => s
  end.

Fixpoint rstrip (s : string) : string :=
  match s with
  | String c rest =>
      match rstrip rest with
      | EmptyString => if is_py_space c then EmptyString
                       else String c EmptyString
      | kept => String c kept
      end
  | EmptyString => EmptyString
  end.

(** [s.strip()] *)
Definition strip (s : string) : string := rstrip (lstrip s).

Fixpoint lower (s : string) : string :=
  match s with
  | String c rest =>
      let n := nat_of_ascii c in
      String (if Nat.leb 65 n && Nat.leb n 90 then ascii_of_nat (n + 32) else c)
             (lower rest)
  | EmptyString => EmptyString
  end.

End Py.

(** ** redshift_iac.py: the outside world *)

Module Aws.
Import Py.

(** A boto3 [ec2.SecurityGroup] resource object: a handle on a group id. *)
Record SecurityGroup : Type := { id : pyval }.

(** The keyword arguments of [redshift.create_cluster]. *)
Record ClusterRequest : Type := {
  ClusterType : string;
  NodeType : string;
  NumberOfNodes : Z;
  DBName : string;
  ClusterIdentifier : string;
  MasterUsername : string;
  MasterUserPassword : string;
  VpcSecurityGroupIds : list pyval;
  IamRoles : list pyval
}.

(** The keyword arguments of [SecurityGroup.authorize_ingress]. *)
Record IngressRequest : Type := {
  GroupName : pyval;
  CidrIp : string;
  IpProtocol : string;
  FromPort : Z;
  ToPort : Z
}.

(** A [requests.Response]. *)
Record Response : Type := {
  status_code : Z;
  text : string
}.

(** The clients the script builds when it is imported, over the state [C]
    of everything behind them.  Each operation answers or raises. *)
Record IamClient (C : Type) : Type := {
  create_role :
    forall (Path RoleName Description AssumeRolePolicyDocument : string),
      C -> result pyval * C;
  attach_role_policy : forall (RoleName PolicyArn : string), C -> result pyval * C;
  get_role : forall (RoleName : string), C -> result pyval * C;
  detach_role_policy : forall (RoleName PolicyArn : string), C -> result pyval * C;
  delete_role : forall (RoleName : string), C -> result pyval * C
}.

Record Ec2Client (C : Type) : Type := {
  create_security_group :
    forall (Description GroupName : string), C -> result pyval * C
}.

Record Ec2Resource (C : Type) : Type := {
  (* security_groups.filter(Filters=[{"Name": n, "Values": vs}]), listed *)
  security_groups_filter :
    forall (Name : string) (Values : list string),
      C -> result (list SecurityGroup) * C;
  (* the lazily loaded attribute SecurityGroup.group_name *)
  group_name : SecurityGroup -> C -> result pyval * C;
  authorize_ingress : SecurityGroup -> IngressRequest -> C -> result pyval * C;
  sg_delete : SecurityGroup -> forall (GroupName : string), C -> result pyval * C
}.

Record RedshiftClient (C : Type) : Type := {
  create_cluster : ClusterRequest -> C -> result pyval * C;
  describe_clusters : forall (ClusterIdentifier : string), C -> result pyval * C;
  delete_cluster :
    forall (ClusterIdentifier : string) (SkipFinalClusterSnapshot : bool),
      C -> result pyval * C
}.

Record Requests (C : Type) : Type := {
  requests_get : forall (url : string), C -> result Response * C
}.

Arguments create_role {C} _ _ _ _ _ _.
Arguments attach_role_policy {C} _ _ _ _.
Arguments get_role {C} _ _ _.
Arguments detach_role_policy {C} _ _ _ _.
Arguments delete_role {C} _ _ _.
Arguments create_security_group {C} _ _ _ _.
Arguments security_groups_filter {C} _ _ _ _.
Arguments group_name {C} _ _ _.
Arguments authorize_ingress {C} _ _ _ _.
Arguments sg_delete {C} _ _ _ _.
Arguments create_cluster {C} _ _ _.
Arguments describe_clusters {C} _ _ _.
Arguments delete_cluster {C} _ _ _ _.
Arguments requests_get {C} _ _ _.

(** The module-level globals [iam], [ec2_client], [ec2_resource],
    [redshift] and the [requests] module. *)
Record Clients (C : Type) : Type := {
  iam : IamClient C;
  ec2_client : Ec2Client C;
  ec2_resource : Ec2Resource C;
  redshift : RedshiftClient C;
  requests : Requests C
}.
Arguments iam {C} _.
Arguments ec2_client {C} _.
Arguments ec2_resource {C} _.
Arguments redshift {C} _.
Arguments requests {C} _.

(** The constants read from [dwh.cfg] when the script is imported. *)
Record Settings : Type := {
  CLUSTER_ID : string;
  DB_NAME : string;
  DB_USER : string;
  DB_PASSWORD : string;
  DB_PORT : Z
}.

(** The [configparser] object: sections of options. *)
Definition ConfigParser : Type := list (string * list (string * string)).

Fixpoint set_option (key value : string) (options : list (string * string))
    : list (string * string) :=
  match options with
  | [] => [(key, value)]
  | (k, v) :: rest =>
      if String.eqb k key then (k, value) :: rest
      else (k, v) :: set_option key value rest
  end.

Fixpoint set_in_section (section key value : string) (cfg : ConfigParser)
    : option ConfigParser :=
  match cfg with
  | [] => None
  | (name, options) :: rest =>
      if String.eqb name section
      then Some ((name, set_option key value options) :: rest)
      else match set_in_section section key value rest with
           | Some rest' => Some ((name, options) :: rest')
           | None => None
           end
  end.

(** What a run leaves behind, in order. *)
Inductive api_call : Type :=
| CreateRole (Path RoleName Description AssumeRolePolicyDocument : string)
| AttachRolePolicy (RoleName PolicyArn : string)
| GetRole (RoleName : string)
| DetachRolePolicy (RoleName PolicyArn : string)
| DeleteRole (RoleName : string)
| CreateSecurityGroup (Description GroupName : string)
| FilterSecurityGroups (Name : string) (Values : list string)
| LoadGroupName (group : SecurityGroup)
| AuthorizeIngress (group : SecurityGroup) (rule : IngressRequest)
| DeleteSecurityGroup (group : SecurityGroup) (GroupName : string)
| CreateCluster (request : ClusterRequest)
| DescribeClusters (ClusterIdentifier : string)
| DeleteCluster (ClusterIdentifier : string) (SkipFinalClusterSnapshot : bool)
| HttpGet (url : string).

(** The parts of a printed line: literal text and interpolated values. *)
Inductive piece : Type :=
| Lit (s : string)
| Val (v : pyval)
| Err (e : exn)
| Obj (g : SecurityGroup).

Inductive event : Type :=
| Print (line : list piece)
| Sleep (seconds : Z)
| Api (call : api_call)
| WriteFile (filename : string) (contents : ConfigParser).

Record World (C : Type) : Type := {
  log : list event;
  cloud : C;
  config : ConfigParser
}.
Arguments log {C} _.
Arguments cloud {C} _.
Arguments config {C} _.
Arguments Build_World {C} _ _ _.

Section Effects.
Context {C : Type}.

Definition emit (e : event) : M (World C) unit :=
  fun w => (Ok tt, {| log := log w ++ [e]; cloud := cloud w;
                      config := config w |}).

Definition print (line : list piece) : M (World C) unit := emit (Print line).

(** [time.sleep(seconds)] *)
Definition sleep (seconds : Z) : M (World C) unit := emit (Sleep seconds).

(** A call through a client: logged, then answered by the cloud. *)
Definition call {A} (c : api_call) (op : C -> result A * C) : M (World C) A :=
  fun w =>
    let (r, cloud') := op (cloud w) in
    (r, {| log := log w ++ [Api c]; cloud := cloud'; config := config w |}).

(** Lifting a pure subscript that may raise. *)
Definition lift {A} (r : result A) : M (World C) A := fun w => (r, w).

(** [config[section][key] = value] *)
Definition config_set (section key : string) (value : pyval)
    : M (World C) unit :=
  fun w =>
    match value with
    | PStr s =>
        match set_in_section section (lower key) s (config w) with
        | Some cfg' =>
            (Ok tt, {| log := log w; cloud := cloud w; config := cfg' |})
        | None => (Raise (KeyError section), w)
        end
    | _ =>
        match lookup section (config w) with
        | Some _ => (Raise (TypeError "option values must be strings"), w)
        | None => (Raise (KeyError section), w)
        end
    end.

(** [with open(filename, "w") as conf: config.write(conf)] *)
Definition config_write (filename : string) : M (World C) unit :=
  fun w => emit (WriteFile filename (config w)) w.
End Effects.

End Aws.

(** ** redshift_iac.py: the functions *)

Module RedshiftIac.
Import Py Aws.
Local Open Scope py_scope.

Definition CONFIG_FILENAME : string := "dwh.cfg".

Definition dq : string := String (ascii_of_nat 34) EmptyString.
Definition quoted (s : string) : string := dq ++ s ++ dq.

(** [json.dumps] of the trust policy literal. *)
Definition assume_role_policy_document : string :=
  "{" ++ quoted "Statement" ++ ": [{" ++ quoted "Action" ++ ": "
  ++ quoted "sts:AssumeRole" ++ ", " ++ quoted "Effect" ++ ": "
  ++ quoted "Allow" ++ ", " ++ quoted "Principal" ++ ": {"
  ++ quoted "Service" ++ ": " ++ quoted "redshift.amazonaws.com" ++ "}}], "
  ++ quoted "Version" ++ ": " ++ quoted "2012-10-17" ++ "}".

Definition s3_read_only_policy : string :=
  "arn:aws:iam::aws:policy/AmazonS3ReadOnlyAccess".

Definition default_role_name : string := "dwh_iam_role".
Definition default_group_name : string := "redshift_security_group".

Section Functions.
Context {C : Type}.

Definition create_iam_role (iam : IamClient C) (iam_RoleName : string)
    : M (World C) pyval :=
  try_except
    (print [Lit "Creating a new IAM Role: "; Lit iam_RoleName] ;;
     dwhRole <- call
       (CreateRole "/" iam_RoleName
          "Allows Redshift clusters to call AWS services on your behalf."
          assume_role_policy_document)
       (create_role iam "/" iam_RoleName
          "Allows Redshift clusters to call AWS services on your behalf."
          assume_role_policy_document) ;;
     ret tt)
    any_Exception
    (fun e => print [Err e]) ;;
  attached <- call (AttachRolePolicy iam_RoleName s3_read_only_policy)
                   (attach_role_policy iam iam_RoleName s3_read_only_policy) ;;
  metadata <- lift (getitem attached "ResponseMetadata") ;;
  _ <- lift (getitem metadata "HTTPStatusCode") ;;
  got <- call (GetRole iam_RoleName) (get_role iam iam_RoleName) ;;
  role <- lift (getitem got "Role") ;;
  roleArn <- lift (getitem role "Arn") ;;
  print [Lit "The ARN of the IAM role was successfully created!";
         Lit SqlQueries.nl; Val roleArn] ;;
  ret roleArn.

Definition delete_iam_role (iam : IamClient C) (iam_RoleName : string)
    : M (World C) pyval :=
  print [Lit "Deleting IAM role named '"; Lit iam_RoleName; Lit "'"] ;;
  _ <- call (DetachRolePolicy iam_RoleName s3_read_only_policy)
            (detach_role_policy iam iam_RoleName s3_read_only_policy) ;;
  response <- call (DeleteRole iam_RoleName) (delete_role iam iam_RoleName) ;;
  print [Val response] ;;
  ret response.

(** The local [security_group] is bound by the last assignment of the
    [try] block and by nothing else: the block hands it on as [Some], the
    handler leaves it unbound, and [return security_group] reads it. *)
Definition create_security_group (ec2_client : Ec2Client C)
    (ec2_resource : Ec2Resource C) (group_name : string)
    : M (World C) SecurityGroup :=
  security_group <-
    try_except
      (response <- call
         (CreateSecurityGroup "Authorise redshift cluster access" group_name)
         (Aws.create_security_group ec2_client
            "Authorise redshift cluster access" group_name) ;;
       security_group_id <- lift (getitem response "GroupId") ;;
       print [Lit "Security group "; Val security_group_id;
              Lit " created successfully."] ;;
       let security_group := {| id := security_group_id |} in
       print [Lit "Security group object: "; Obj security_group] ;;
       ret (Some security_group))
      any_Exception
      (fun e => print [Lit "Error creating security group: "; Err e] ;;
                ret None) ;;
  match security_group with
  | Some g => ret g
  | None => raise (UnboundLocalError "security_group")
  end.

(** [response.raise_for_status()] *)
Definition raise_for_status (response : Response) : M (World C) unit :=
  if (Z.leb 400 (status_code response) && Z.ltb (status_code response) 600)%Z
  then raise (RequestException "HTTPError")
  else ret tt.

Definition get_public_ip (requests : Requests C)
    : M (World C) (option string) :=
  try_except
    (response <- call (HttpGet "https://ifconfig.me")
                      (requests_get requests "https://ifconfig.me") ;;
     raise_for_status response ;;
     ret (Some (strip (text response))))
    is_RequestException
    (fun e => print [Lit "Error getting public IP: "; Err e] ;;
              ret None).

Definition create_redshift_cluster (s : Settings) (redshift : RedshiftClient C)
    (roleArn SecurityGroupID : pyval)
    (cluster_type node_type : string) (num_nodes : Z) : M (World C) unit :=
  print [Lit "Creating Redshift Cluster"] ;;
  let request :=
    {| ClusterType := cluster_type;
       NodeType := node_type;
       NumberOfNodes := num_nodes;
       DBName := DB_NAME s;
       ClusterIdentifier := CLUSTER_ID s;
       MasterUsername := DB_USER s;
       MasterUserPassword := DB_PASSWORD s;
       VpcSecurityGroupIds := [SecurityGroupID];
       IamRoles := [roleArn] |} in
  try_except
    (response <- call (CreateCluster request) (create_cluster redshift request) ;;
     ret tt)
    any_Exception
    (fun e => print [Err e]).

Definition delete_security_group (ec2_resource : Ec2Resource C)
    (group_name : string) : M (World C) unit :=
  try_except
    (security_groups <- call
       (FilterSecurityGroups "group-name" [group_name])
       (security_groups_filter ec2_resource "group-name" [group_name]) ;;
     match security_groups with
     | security_group_obj :: _ =>
         print [Lit "Security group object for "; Lit (quoted group_name);
                Lit ": "; Obj security_group_obj] ;;
         print [Lit "Deleting security group: '"; Lit group_name; Lit "'"] ;;
         response <- call (DeleteSecurityGroup security_group_obj group_name)
                          (sg_delete ec2_resource security_group_obj group_name) ;;
         print [Val response]
     | [] =>
         print [Lit "No security group found with name ";
                Lit (quoted group_name)]
     end)
    any_Exception
    (fun e => print [Lit "Error getting security group object: "; Err e]).

Definition get_cluster_info (redshift : RedshiftClient C)
    : M (World C) (pyval * pyval) :=
  try_except
    (response <- call (DescribeClusters "dwhCluster")
                      (describe_clusters redshift "dwhCluster") ;;
     clusters <- lift (getitem response "Clusters") ;;
     first <- lift (getindex clusters 0) ;;
     cluster_status <- lift (getitem first "ClusterStatus") ;;
     print [Lit "Cluster status: "; Val cluster_status] ;;
     if eq_str cluster_status "available" then
       clusters <- lift (getitem response "Clusters") ;;
       first <- lift (getindex clusters 0) ;;
       endpoint <- lift (getitem first "Endpoint") ;;
       dwh_endpoint <- lift (getitem endpoint "Address") ;;
       ret (cluster_status, dwh_endpoint)
     else ret (cluster_status, PNone))
    any_Exception
    (fun e => print [Lit "Error getting cluster status: "; Err e] ;;
              ret (PNone, PNone)).

Definition delete_redshift_cluster (redshift : RedshiftClient C)
    (cluster_identifier : string) : M (World C) unit :=
  try_except
    (response <- call (DeleteCluster cluster_identifier true)
                      (delete_cluster redshift cluster_identifier true) ;;
     print [Lit "Deleting cluster '"; Lit cluster_identifier; Lit "'..."])
    any_Exception
    (fun e => print [Lit "Error deleting cluster: "; Err e]).

(** The three subcommands, over the module's globals. *)
Variable s : Settings.
Variable aws : Clients C.

Definition init : M (World C) unit :=
  iam_role <- create_iam_role (iam aws) default_role_name ;;
  sec_group <- create_security_group (ec2_client aws) (ec2_resource aws)
                 default_group_name ;;
  public_ip <- get_public_ip (requests aws) ;;
  (if truthy public_ip then
     let ip := match public_ip with Some a => a | None => "" end in
     print [Lit "Public IP address: "; Lit ip] ;;
     name <- call (LoadGroupName sec_group)
                  (group_name (ec2_resource aws) sec_group) ;;
     let rule := {| GroupName := name;
                    CidrIp := ip ++ "/32";
                    IpProtocol := "TCP";
                    FromPort := DB_PORT s;
                    ToPort := DB_PORT s |} in
     _ <- call (AuthorizeIngress sec_group rule)
               (authorize_ingress (ec2_resource aws) sec_group rule) ;;
     print [Lit "Open Incoming TCP port to current public IP address"]
   else raise (PyException "Failed to retrieve public IP address")) ;;
  create_redshift_cluster s (redshift aws) iam_role (id sec_group)
    "multi-node" "dc2.large" 2 ;;
  config_set "IAM_ROLE" "ARN" iam_role ;;
  config_write CONFIG_FILENAME ;;
  print [Lit "Updated "; Lit CONFIG_FILENAME; Lit " with IAM ARN"].

Definition status : M (World C) unit :=
  info <- get_cluster_info (redshift aws) ;;
  let (cluster_status, dwh_endpoint) := info in
  if eq_str cluster_status "available" then
    print [Lit "You are ready to use your Redshift cluster!"] ;;
    config_set "CLUSTER" "host" dwh_endpoint ;;
    config_write CONFIG_FILENAME ;;
    print [Lit "Updated "; Lit CONFIG_FILENAME; Lit " with host"]
  else ret tt.

End Functions.

End RedshiftIac.

(** ** A small AWS account to run the functions against

    One account with the resources the tool manages, answering the calls
    the way the services document them: [NoSuchEntity] for a role that is
    not there, [EntityAlreadyExists] for one that is, and so on. *)

Module Account.
Import Py Aws.

Record Cluster : Type := {
  cluster_status : string;
  endpoint_address : option string
}.

Record Cloud : Type := {
  roles : list (string * list string);      (* role name, attached policies *)
  groups : list (string * string);          (* group id, group name *)
  rules : list (string * IngressRequest);   (* group id, ingress rule *)
  clusters : list (string * Cluster);       (* cluster identifier *)
  ip_service : result Response              (* what the IP service answers *)
}.

Definition has {A} (key : string) (items : list (string * A)) : bool :=
  match lookup key items with Some _ => true | None => false end.

Definition without {A} (key : string) (items : list (string * A))
    : list (string * A) :=
  filter (fun kv => negb (String.eqb (fst kv) key)) items.

Definition no_such_entity (name : string) : exn :=
  ClientError "NoSuchEntity" ("The role with name " ++ name ++ " cannot be found.").

Definition role_arn (name : string) : string :=
  "arn:aws:iam::123456789012:role/" ++ name.

Definition role_description (name : string) : pyval :=
  PDict [("Role", PDict [("RoleName", PStr name); ("Arn", PStr (role_arn name))])].

Definition http_ok : pyval :=
  PDict [("ResponseMetadata", PDict [("HTTPStatusCode", PInt 200)])].

Definition with_roles (c : Cloud) (r : list (string * list string)) : Cloud :=
  {| roles := r; groups := groups c; rules := rules c;
     clusters := clusters c; ip_service := ip_service c |}.

Definition with_groups (c : Cloud) (g : list (string * string)) : Cloud :=
  {| roles := roles c; groups := g; rules := rules c;
     clusters := clusters c; ip_service := ip_service c |}.

Definition with_rules (c : Cloud) (r : list (string * IngressRequest)) : Cloud :=
  {| roles := roles c; groups := groups c; rules := r;
     clusters := clusters c; ip_service := ip_service c |}.

Definition with_clusters (c : Cloud) (k : list (string * Cluster)) : Cloud :=
  {| roles := roles c; groups := groups c; rules := rules c;
     clusters := k; ip_service := ip_service c |}.

Definition iam : IamClient Cloud := {|
  create_role := fun _ name _ _ c =>
    if has name (roles c)
    then (Raise (ClientError "EntityAlreadyExists"
                   ("Role with name " ++ name ++ " already exists.")), c)
    else (Ok (role_description name), with_roles c ((name, []) :: roles c));
  attach_role_policy := fun name policy c =>
    match lookup name (roles c) with
    | Some attached =>
        (Ok http_ok,
         with_roles c
           ((name, if existsb (String.eqb policy) attached then attached
                   else policy :: attached)
            :: without name (roles c)))
    | None => (Raise (no_such_entity name), c)
    end;
  get_role := fun name c =>
    if has name (roles c) then (Ok (role_description name), c)
    else (Raise (no_such_entity name), c);
  detach_role_policy := fun name policy c =>
    match lookup name (roles c) with
    | Some attached =>
        if existsb (String.eqb policy) attached
        then (Ok http_ok,
              with_roles c
                ((name, filter (fun p => negb (String.eqb policy p)) attached)
                 :: without name (roles c)))
        else (Raise (ClientError "NoSuchEntity"
                       ("Policy " ++ policy ++ " was not found.")), c)
    | None => (Raise (no_such_entity name), c)
    end;
  delete_role := fun name c =>
    match lookup name (roles c) with
    | Some [] => (Ok http_ok, with_roles c (without name (roles c)))
    | Some (_ :: _) =>
        (Raise (ClientError "DeleteConflict"
                  "Cannot delete entity, must detach all policies first."), c)
    | None => (Raise (no_such_entity name), c)
    end
|}.

Definition group_named (name : string) (g : string * string) : bool :=
  String.eqb (snd g) name.

Definition group_not_found : exn :=
  ClientError "InvalidGroup.NotFound" "The security group does not exist".

Definition group_key (g : SecurityGroup) : string :=
  match id g with PStr s => s | _ => "" end.

Definition ec2_client : Ec2Client Cloud := {|
  create_security_group := fun _ name c =>
    if existsb (group_named name) (groups c)
    then (Raise (ClientError "InvalidGroup.Duplicate"
                   ("The security group '" ++ name ++ "' already exists")), c)
    else (Ok (PDict [("GroupId", PStr ("sg-" ++ name))]),
          with_groups c (("sg-" ++ name, name) :: groups c))
|}.

Definition ec2_resource : Ec2Resource Cloud := {|
  security_groups_filter := fun filter_name values c =>
    if String.eqb filter_name "group-name"
    then (Ok (map (fun g => {| id := PStr (fst g) |})
                  (filter (fun g => existsb (String.eqb (snd g)) values)
                          (groups c))), c)
    else (Ok [], c);
  group_name := fun g c =>
    match lookup (group_key g) (groups c) with
    | Some name => (Ok (PStr name), c)
    | None => (Raise group_not_found, c)
    end;
  authorize_ingress := fun g rule c =>
    if has (group_key g) (groups c)
    then (Ok http_ok, with_rules c ((group_key g, rule) :: rules c))
    else (Raise group_not_found, c);
  sg_delete := fun g _ c =>
    if has (group_key g) (groups c)
    then (Ok http_ok, with_groups c (without (group_key g) (groups c)))
    else (Raise group_not_found, c)
|}.

Definition cluster_not_found (identifier : string) : exn :=
  ClientError "ClusterNotFound" ("Cluster " ++ identifier ++ " not found.").

Definition cluster_description (identifier : string) (k : Cluster) : pyval :=
  PDict (("ClusterIdentifier", PStr identifier)
         :: ("ClusterStatus", PStr (cluster_status k))
         :: match endpoint_address k with
            | Some a => [("Endpoint", PDict [("Address", PStr a);
                                             ("Port", PInt 5439)])]
            | None => []
            end).

Definition redshift : RedshiftClient Cloud := {|
  create_cluster := fun request c =>
    if has (ClusterIdentifier request) (clusters c)
    then (Raise (ClientError "ClusterAlreadyExists" "Cluster already exists"), c)
    else (Ok http_ok,
          with_clusters c
            ((ClusterIdentifier request,
              {| cluster_status := "creating"; endpoint_address := None |})
             :: clusters c));
  describe_clusters := fun identifier c =>
    match lookup identifier (clusters c) with
    | Some k => (Ok (PDict [("Clusters", PList [cluster_description identifier k])]), c)
    | None => (Raise (cluster_not_found identifier), c)
    end;
  delete_cluster := fun identifier _ c =>
    if has identifier (clusters c)
    then (Ok http_ok,
          with_clusters c
            ((identifier,
              {| cluster_status := "deleting"; endpoint_address := None |})
             :: without identifier (clusters c)))
    else (Raise (cluster_not_found identifier), c)
|}.

Definition requests : Requests Cloud := {|
  requests_get := fun _ c => (ip_service c, c)
|}.

Definition clients : Clients Cloud := {|
  Aws.iam := iam;
  Aws.ec2_client := ec2_client;
  Aws.ec2_resource := ec2_resource;
  Aws.redshift := redshift;
  Aws.requests := requests
|}.

(** An account with none of the tool's resources, and an IP service that
    answers [reply]. *)
Definition empty (reply : result Response) : Cloud :=
  {| roles := []; groups := []; rules := []; clusters := [];
     ip_service := reply |}.

Definition settings : Settings :=
  {| CLUSTER_ID := "sparkify"; DB_NAME := "dwh"; DB_USER := "dwhuser";
     DB_PASSWORD := "Passw0rd"; DB_PORT := 5439 |}.

Definition dwh_cfg : ConfigParser :=
  [("AWS", [("access_key_id", "AKIA"); ("secret_access_key", "secret");
            ("aws_region", "us-west-2")]);
   ("CLUSTER", [("cluster_id", "sparkify"); ("db_name", "dwh");
                ("db_user", "dwhuser"); ("db_password", "Passw0rd");
                ("db_port", "5439")]);
   ("IAM_ROLE", [("arn", "")]);
   ("S3", [("log_data", "'s3://udacity-dend/log_data'")])].

Definition boot (c : Cloud) : World Cloud :=
  {| log := []; cloud := c; config := dwh_cfg |}.

(** The worlds the examples start in: the IP service is down in all of
    them. *)
Definition unreachable : result Response :=
  Raise (RequestException "Connection refused").

Definition fresh : World Cloud := boot (empty unreachable).

Definition with_group : World Cloud :=
  boot (with_groups (empty unreachable) [("sg-0a1b", "redshift_security_group")]).

Definition with_role : World Cloud :=
  boot (with_roles (empty unreachable)
          [("dwh_iam_role", ["arn:aws:iam::aws:policy/AmazonS3ReadOnlyAccess"])]).

Definition with_cluster (state : string) (address : option string)
    : World Cloud :=
  boot (with_clusters (empty unreachable)
          [("dwhCluster", {| cluster_status := state;
                             endpoint_address := address |})]).

End Account.

(** ** A small warehouse to run the transform on

    Two events and two songs: the first event matches the first song on
    artist, duration and title; the second event names the same artist and
    title with another duration. *)

Module Fixture.
Import Warehouse.

Definition event (who what : string) (seconds when : Z) : staging_event :=
  {| artist := Some who; auth := Some "Logged In"; firstName := Some "Lily";
     gender := Some "F"; itemInSession := Some 0%Z; lastName := Some "Koch";
     length := Some seconds; level := Some "paid";
     location := Some "Chicago-Naperville-Elgin, IL-IN-WI";
     method := Some "PUT"; page := Some "NextSong";
     registration := Some "1541048010796"; sessionId := Some 818%Z;
     song := Some what; status := Some 200%Z; ts := Some when;
     userAgent := Some "Mozilla/5.0"; userId := Some 15%Z |}.

Definition track (key who what : string) (seconds : Z) : staging_song :=
  {| num_songs := Some 1%Z; artist_id := Some ("AR" ++ key);
     artist_latitude := None; artist_longitude := None;
     artist_location := None; artist_name := Some who;
     song_id := Some ("SO" ++ key); title := Some what;
     duration := Some seconds; year := Some 2004%Z |}.

Definition events : list staging_event :=
  [event "Des'ree" "You Gotta Be" 246 1542837407796;
   event "Des'ree" "You Gotta Be" 245 1542837408796].

Definition songs : list staging_song :=
  [track "1" "Des'ree" "You Gotta Be" 246;
   track "2" "Muse" "Supermassive Black Hole" 209].

(** An engine that accepts every other statement and keeps no dimension
    data. *)
Definition engine : Engine unit :=
  {| run_dimension_insert := fun _ _ _ d => (Ok tt, d);
     run_other := fun _ db => (Ok tt, db);
     run_commit := fun _ => Ok tt |}.

(** A connection on which one statement is rejected and all else passes. *)
Definition rejecting (bad : string) : Db.Connection unit :=
  {| Db.cur_execute := fun q s =>
       if String.eqb q bad
       then (Raise (DatabaseError "syntax error"), s) else (Ok tt, s);
     Db.conn_commit := fun s => (Ok tt, s) |}.

Definition loaded : Database unit :=
  {| staging_events := events; staging_songs := songs; songplays := [];
     songplays_identity := 0; dimensions := tt |}.

End Fixture.

(** ** Predicates on runs of the SQL scripts *)

Module Properties.
Import Db SqlText Warehouse.
Local Open Scope list_scope.

(** A runner over [queries] issues [Execute q; Commit] for each statement in
    list order; it either gets through the list, or one call raises, the
    exception is the runner's outcome and nothing is issued after it. *)
Definition runs_each_then_commits {S} (conn : Connection S)
    (queries : list string) (runner : M (World S) unit) : Prop :=
  forall w : World S,
    (fst (runner w) = Ok tt
     /\ calls (snd (runner w)) = calls w ++ each_committed queries)
    \/ (exists pre q post e,
          queries = pre ++ q :: post
          /\ fst (runner w) = Raise e
          /\ ((calls (snd (runner w))
                 = calls w ++ each_committed pre ++ [Execute q]
               /\ exists s, fst (cur_execute conn q s) = Raise e)
              \/ (calls (snd (runner w))
                    = calls w ++ each_committed pre ++ [Execute q; Commit]
                  /\ exists s, fst (conn_commit conn s) = Raise e))).

(** Follows the spec's words: the events row and the songs row agree exactly
    on artist name, duration and title, all three present. *)
Definition exact_match (e : staging_event) (s : staging_song) : Prop :=
  exists name seconds song_title,
    artist e = Some name /\ artist_name s = Some name
    /\ length e = Some seconds /\ duration s = Some seconds
    /\ song e = Some song_title /\ title s = Some song_title.

(** Two database states with the same staging tables and fact table. *)
Definition same_facts {D} (db db' : Database D) : Prop :=
  staging_events db' = staging_events db
  /\ staging_songs db' = staging_songs db
  /\ songplays db' = songplays db
  /\ songplays_identity db' = songplays_identity db.

End Properties.

(** ** Predicates on runs of the lifecycle tool *)

Module IacProperties.
Import Py Aws.
Local Open Scope list_scope.

(** The events a computation adds to the log of the world it starts in. *)
Definition trace {C A} (m : M (World C) A) (w : World C) : list event :=
  skipn (List.length (log w)) (log (snd (m w))).




(** The calls that open the network or start a cluster. *)
Definition opens_access (e : event) : bool :=
  match e with
  | Api (AuthorizeIngress _ _) => true
  | Api (CreateCluster _) => true
  | _ => false
  end.

Definition creates_group (e : event) : bool :=
  match e with
  | Api (CreateSecurityGroup _ _) => true
  | _ => false
  end.

(** What a computation adds to the log, whatever the world answers,
    satisfies [P]. *)
Definition adds {C A} (P : list event -> Prop) (m : M (World C) A) : Prop :=
  forall w, exists new, log (snd (m w)) = log w ++ new /\ P new.

(** Events that open nothing. *)
Definition quiet (new : list event) : Prop :=
  existsb opens_access new = false.

(** [response["Clusters"][0]["ClusterStatus"]] *)
Definition reported_status (response : pyval) : result pyval :=
  match getitem response "Clusters" with
  | Ok clusters =>
      match getindex clusters 0 with
      | Ok first => getitem first "ClusterStatus"
      | Raise e => Raise e
      end
  | Raise e => Raise e
  end.

(** [response["Clusters"][0]["Endpoint"]["Address"]] *)
Definition reported_address (response : pyval) : result pyval :=
  match getitem response "Clusters" with
  | Ok clusters =>
      match getindex clusters 0 with
      | Ok first =>
          match getitem first "Endpoint" with
          | Ok endpoint => getitem endpoint "Address"
          | Raise e => Raise e
          end
      | Raise e => Raise e
      end
  | Raise e => Raise e
  end.


End IacProperties.

(** ** Reading dwh.cfg *)

Module ConfigFile.
Import Py Aws.

(** [config[section][key]]: a missing section or option is a [KeyError];
    option names are matched in lower case. *)
Definition getitem2 (cfg : ConfigParser) (section key : string)
    : result string :=
  match lookup section cfg with
  | Some options =>
      match lookup (lower key) options with
      | Some value => Ok value
      | None => Raise (KeyError key)
      end
  | None => Raise (KeyError section)
  end.

End ConfigFile.

(** ** The [main] functions of etl.py and create_tables.py *)

Module Scripts.
Import SqlQueries Db ConfigFile.
Local Open Scope list_scope.
Local Open Scope py_scope.

(** The keyword arguments of [psycopg2.connect]. *)
Record ConnectArgs : Type := {
  host : string;
  dbname : string;
  user : string;
  password : string;
  port : string
}.

(** psycopg2 as the scripts use it: [connect] opens a session or raises,
    the connection executes and commits on it, [close] ends it. *)
Record Psycopg2 (S : Type) : Type := {
  connect : ConnectArgs -> result S;
  connection : Connection S;
  close : S -> result unit
}.
Arguments connect {S} _ _.
Arguments connection {S} _.
Arguments close {S} _ _.

(** What a script has done, oldest first. *)
Inductive step : Type :=
| Connect (args : ConnectArgs)
| Call (c : db_call)
| Close.

Section Main.
Context {S : Type} (psycopg2 : Psycopg2 S).

(** The five subscripts of [config] in the argument list, left to right. *)
Definition connect_args (config : Aws.ConfigParser) : result ConnectArgs :=
  match getitem2 config "CLUSTER" "host" with
  | Raise e => Raise e
  | Ok h =>
  match getitem2 config "CLUSTER" "db_name" with
  | Raise e => Raise e
  | Ok d =>
  match getitem2 config "CLUSTER" "db_user" with
  | Raise e => Raise e
  | Ok u =>
  match getitem2 config "CLUSTER" "db_password" with
  | Raise e => Raise e
  | Ok p =>
  match getitem2 config "CLUSTER" "db_port" with
  | Raise e => Raise e
  | Ok n =>
      Ok {| host := h; dbname := d; user := u; password := p; port := n |}
  end end end end end.

(** [conn = psycopg2.connect(...)] *)
Definition open_connection (config : Aws.ConfigParser) : M (list step) S :=
  fun done =>
    match connect_args config with
    | Raise e => (Raise e, done)
    | Ok args =>
        (connect psycopg2 args, done ++ [Connect args])
    end.

(** A runner called with the cursor and the connection of the session. *)
Definition with_cursor (runner : M (World S) unit) (s : S) : M (list step) S :=
  fun done =>
    let (r, w) := runner (start s) in
    (match r with Ok _ => Ok (session w) | Raise e => Raise e end,
     done ++ map Call (calls w)).

(** [conn.close()] *)
Definition close_connection (s : S) : M (list step) unit :=
  fun done => (close psycopg2 s, done ++ [Close]).

(** etl.py *)
Definition etl_main (config : Aws.ConfigParser) (cfg : S3Config)
    : M (list step) unit :=
  conn <- open_connection config ;;
  conn <- with_cursor (Etl.load_staging_tables (connection psycopg2) cfg) conn ;;
  conn <- with_cursor (Etl.insert_tables (connection psycopg2)) conn ;;
  close_connection conn.

(** create_tables.py *)
Definition create_tables_main (config : Aws.ConfigParser) : M (list step) unit :=
  conn <- open_connection config ;;
  conn <- with_cursor (CreateTables.drop_tables (connection psycopg2)) conn ;;
  conn <- with_cursor (CreateTables.create_tables (connection psycopg2)) conn ;;
  close_connection conn.
End Main.

(** The statements a script has executed, in order. *)
Fixpoint statements (done : list step) : list string :=
  match done with
  | [] => []
  | Call (Execute q) :: rest => q :: statements rest
  | _ :: rest => statements rest
  end.

Definition closes (done : list step) : bool :=
  existsb (fun x => match x with Close => true | _ => false end) done.

Definition connects (done : list step) : bool :=
  existsb (fun x => match x with Connect _ => true | _ => false end) done.

End Scripts.

(** ** Reading the DDL: which table a statement creates or drops *)

Module Ddl.
Import SqlQueries SqlText.

Definition create_target (query : string) : option string :=
  match strip_prefix "CREATE TABLE IF NOT EXISTS " (skip_spaces query) with
  | Some rest => Some (take_ident rest)
  | None => None
  end.

Definition drop_target (query : string) : option string :=
  match strip_prefix "DROP TABLE IF EXISTS " (skip_spaces query) with
  | Some rest => Some (take_ident rest)
  | None => None
  end.

Definition mem (x : string) (xs : list (option string)) : bool :=
  existsb (fun y => match y with Some t => String.eqb t x | None => false end) xs.

(** Every table a CREATE statement references is created by a statement
    earlier in the list. *)
Fixpoint references_created (earlier : list (option string))
    (queries : list string) : bool :=
  match queries with
  | [] => true
  | q :: rest =>
      forallb (fun t => mem t earlier) (references_of q)
      && references_created (earlier ++ [create_target q]) rest
  end.

End Ddl.

(** ** More sample data for the scripts *)

Module Scenarios.
Import Py Aws Warehouse.
Local Open Scope list_scope.

(** [dwh.cfg] once [status] has stored the endpoint. *)
Definition dwh_cfg_with_host : ConfigParser :=
  [("AWS", [("access_key_id", "AKIA"); ("secret_access_key", "secret");
            ("aws_region", "us-west-2")]);
   ("CLUSTER", [("cluster_id", "sparkify"); ("db_name", "dwh");
                ("db_user", "dwhuser"); ("db_password", "Passw0rd");
                ("db_port", "5439");
                ("host", "dwhcluster.c1.us-west-2.redshift.amazonaws.com")]);
   ("IAM_ROLE", [("arn", "arn:aws:iam::123456789012:role/dwh_iam_role")]);
   ("S3", [("log_data", "'s3://udacity-dend/log_data'")])].

Definition s3 : SqlQueries.S3Config :=
  {| SqlQueries.LOG_DATA := "'s3://udacity-dend/log_data'";
     SqlQueries.LOG_JSONPATH := "'s3://udacity-dend/log_json_path.json'";
     SqlQueries.SONG_DATA := "'s3://udacity-dend/song_data'";
     SqlQueries.ARN := "arn:aws:iam::123456789012:role/dwh_iam_role" |}.


(** A server that rejects one statement. *)
Definition rejecting (bad : string) : Scripts.Psycopg2 unit :=
  {| Scripts.connect := fun _ => Ok tt;
     Scripts.connection := Fixture.rejecting bad;
     Scripts.close := fun _ => Ok tt |}.

(** A page view without a song: artist, song and length are NULL. *)
Definition page_view : staging_event :=
  {| artist := None; auth := Some "Logged In"; firstName := Some "Lily";
     gender := Some "F"; itemInSession := Some 1%Z; lastName := Some "Koch";
     length := None; level := Some "paid";
     location := Some "Chicago-Naperville-Elgin, IL-IN-WI";
     method := Some "GET"; page := Some "Home";
     registration := Some "1541048010796"; sessionId := Some 818%Z;
     song := None; status := Some 200%Z; ts := Some 1542837409796%Z;
     userAgent := Some "Mozilla/5.0"; userId := Some 15%Z |}.

(** A song row whose artist name, title and duration are all NULL. *)
Definition blank_song : staging_song :=
  {| num_songs := Some 1%Z; artist_id := Some "AR0"; artist_latitude := None;
     artist_longitude := None; artist_location := None; artist_name := None;
     song_id := Some "SO0"; title := None; duration := None;
     year := Some 0%Z |}.

(** A play by a listener whose user id was not recorded. *)
Definition anonymous_play : staging_event :=
  {| artist := Some "Des'ree"; auth := Some "Logged Out"; firstName := None;
     gender := None; itemInSession := Some 0%Z; lastName := None;
     length := Some 246%Z; level := Some "free"; location := None;
     method := Some "PUT"; page := Some "NextSong"; registration := None;
     sessionId := Some 900%Z; song := Some "You Gotta Be";
     status := Some 200%Z; ts := Some 1542837410796%Z;
     userAgent := None; userId := None |}.

Definition with_anonymous_play : Database unit :=
  {| staging_events := Fixture.events ++ [anonymous_play];
     staging_songs := Fixture.songs; songplays := [];
     songplays_identity := 0; dimensions := tt |}.

(** The same song loaded twice into staging_songs. *)
Definition with_duplicate_song : Database unit :=
  {| staging_events := Fixture.events;
     staging_songs := Fixture.songs ++ [Fixture.track "1" "Des'ree" "You Gotta Be" 246];
     songplays := []; songplays_identity := 0; dimensions := tt |}.

(** Accounts whose IP service answers. *)
Definition answering (body : string) : World Account.Cloud :=
  Account.boot (Account.empty (Ok {| status_code := 200; text := body |})).

(** An IAM client without permissions: every call is denied. *)
Definition access_denied : exn :=
  ClientError "AccessDenied" "User is not authorized to perform this action".

Definition denied_iam : IamClient Account.Cloud :=
  {| create_role := fun _ _ _ _ c => (Raise access_denied, c);
     attach_role_policy := fun _ _ c => (Raise access_denied, c);
     get_role := fun _ c => (Raise access_denied, c);
     detach_role_policy := fun _ _ c => (Raise access_denied, c);
     delete_role := fun _ c => (Raise access_denied, c) |}.

(** Two groups of the same name, as [describe] may list them across VPCs. *)
Definition with_two_groups : World Account.Cloud :=
  Account.boot
    (Account.with_groups (Account.empty Account.unreachable)
       [("sg-0a1b", "redshift_security_group");
        ("sg-2c3d", "redshift_security_group")]).

End Scenarios.

(** ** Predicates on runs of the [main] functions *)

Module ScriptProperties.
Import Db Scripts.
Local Open Scope list_scope.

(** The calls a script made on its connection. *)
Definition db_calls (done : list step) : list db_call :=
  flat_map (fun x => match x with Call c => [c] | _ => [] end) done.

Definition is_prefix {A} (l full : list A) : Prop :=
  exists rest, full = l ++ rest.

(** The shape both [main]s share: connect, run two runners, close. *)
Definition two_stage {S} (psycopg2 : Psycopg2 S)
    (first second : M (World S) unit) (config : Aws.ConfigParser)
    : M (list step) unit :=
  bind (open_connection psycopg2 config) (fun conn =>
  bind (with_cursor first conn) (fun conn =>
  bind (with_cursor second conn) (fun conn =>
  close_connection psycopg2 conn))).


(** The tables a list of statements names after a given keyword reader. *)
Definition targets (read : string -> option string) (queries : list string)
    : list string :=
  flat_map (fun q => match read q with Some t => [t] | None => [] end) queries.

End ScriptProperties.

(** ** Counting on the warehouse *)

Module WarehouseProperties.
Import Warehouse.
Local Open Scope list_scope.

(** The rows the SELECT of [songplay_table_insert] yields on a database. *)
Definition selected {D} (db : Database D) : list songplay :=
  map songplay_select (songplay_join (staging_events db) (staging_songs db)).

(** How many rows of staging_songs an events row joins to. *)
Definition matches (songs : list staging_song) (e : staging_event) : nat :=
  List.length (filter (join_on e) songs).

End WarehouseProperties.

(** ** More predicates on runs of the lifecycle tool *)

Module IacChecks.
Import Py Aws.
Local Open Scope list_scope.

(** The rule [init] means to authorize: one address, TCP, the database
    port. *)
Definition single_host_rule (s : Settings) (rule : IngressRequest) : Prop :=
  IpProtocol rule = "TCP"
  /\ FromPort rule = DB_PORT s
  /\ ToPort rule = DB_PORT s
  /\ exists ip, ip <> "" /\ strip ip = ip /\ CidrIp rule = (ip ++ "/32")%string.

Definition ingress_rules (events : list event) : list IngressRequest :=
  flat_map (fun e => match e with
                     | Api (AuthorizeIngress _ rule) => [rule]
                     | _ => []
                     end) events.

Definition cluster_requests (events : list event) : list ClusterRequest :=
  flat_map (fun e => match e with
                     | Api (CreateCluster request) => [request]
                     | _ => []
                     end) events.

(** No cluster is requested before an ingress rule has been authorized. *)
Fixpoint cluster_after_ingress (authorized : bool) (events : list event)
    : bool :=
  match events with
  | [] => true
  | Api (AuthorizeIngress _ _) :: rest => cluster_after_ingress true rest
  | Api (CreateCluster _) :: rest =>
      authorized && cluster_after_ingress authorized rest
  | _ :: rest => cluster_after_ingress authorized rest
  end.

(** The configurations a run wrote to disk. *)
Definition written (events : list event) : list (string * ConfigParser) :=
  flat_map (fun e => match e with
                     | WriteFile name contents => [(name, contents)]
                     | _ => []
                     end) events.

Definition group_deletions (events : list event) : list SecurityGroup :=
  flat_map (fun e => match e with
                     | Api (DeleteSecurityGroup g _) => [g]
                     | _ => []
                     end) events.

(** All characters of a string are white space (or there are none). *)
Fixpoint blank (s : string) : bool :=
  match s with
  | EmptyString => true
  | String c rest => is_py_space c && blank rest
  end.

(** A string that is empty or starts with a character that stays. *)
Definition starts_clean (s : string) : Prop :=
  match s with
  | EmptyString => True
  | String c _ => is_py_space c = false
  end.

(** The status an HTTP response must not have for [raise_for_status]. *)
Definition http_error (r : Response) : bool :=
  (Z.leb 400 (status_code r) && Z.ltb (status_code r) 600)%Z.

End IacChecks.

(** ** What a run of [init] may leave in the log *)

Module InitChecks.
Import Py Aws RedshiftIac IacChecks.
Local Open Scope list_scope.
Local Open Scope py_scope.

(** [init] from the test of [public_ip] on. *)
Definition init_after_lookup {C} (s : Settings) (aws : Clients C)
    (iam_role : pyval) (sec_group : SecurityGroup)
    (public_ip : option string) : M (World C) unit :=
  (if truthy public_ip then
     let ip := match public_ip with Some a => a | None => "" end in
     print [Lit "Public IP address: "; Lit ip] ;;
     name <- call (LoadGroupName sec_group)
                  (group_name (ec2_resource aws) sec_group) ;;
     let rule := {| GroupName := name;
                    CidrIp := ip ++ "/32";
                    IpProtocol := "TCP";
                    FromPort := DB_PORT s;
                    ToPort := DB_PORT s |} in
     _ <- call (AuthorizeIngress sec_group rule)
               (authorize_ingress (ec2_resource aws) sec_group rule) ;;
     print [Lit "Open Incoming TCP port to current public IP address"]
   else raise (PyException "Failed to retrieve public IP address")) ;;
  create_redshift_cluster s (redshift aws) iam_role (id sec_group)
    "multi-node" "dc2.large" 2 ;;
  config_set "IAM_ROLE" "ARN" iam_role ;;
  config_write CONFIG_FILENAME ;;
  print [Lit "Updated "; Lit CONFIG_FILENAME; Lit " with IAM ARN"].

(** What [create_iam_role] returned, when it returned. *)
Definition returned_role {C} (aws : Clients C) (w : World C) : pyval :=
  match fst (create_iam_role (iam aws) default_role_name w) with
  | Ok role => role
  | Raise _ => PNone
  end.

(** Nothing written to disk, and the configuration as it was. *)
Definition untouched {C A} (m : M (World C) A) : Prop :=
  forall w, config (snd (m w)) = config w
            /\ exists new, log (snd (m w)) = log w ++ new /\ written new = [].

(** The groups a log authorizes ingress to. *)
Definition ingress_groups (events : list event) : list SecurityGroup :=
  flat_map (fun e => match e with
                     | Api (AuthorizeIngress g _) => [g]
                     | _ => []
                     end) events.

(** The cluster request [init] means to make. *)
Definition cluster_request_of (s : Settings) (role : pyval)
    (events : list event) (request : ClusterRequest) : Prop :=
  ClusterIdentifier request = CLUSTER_ID s
  /\ NumberOfNodes request = 2%Z
  /\ ClusterType request = "multi-node"
  /\ NodeType request = "dc2.large"
  /\ DBName request = DB_NAME s
  /\ IamRoles request = [role]
  /\ exists group,
       VpcSecurityGroupIds request = [id group]
       /\ In group (ingress_groups events).

(** What holds of the events of every run of [init]; [role] is what
    [create_iam_role] returned, if it did. *)
Definition init_events (s : Settings) (role : pyval) (events : list event)
    : Prop :=
  Forall (single_host_rule s) (ingress_rules events)
  /\ List.length (ingress_rules events) <= 1
  /\ cluster_after_ingress false events = true
  /\ List.length (cluster_requests events) <= 1
  /\ Forall (cluster_request_of s role events) (cluster_requests events).

End InitChecks.

(** * Theorems *)

(** ** The runners of etl.py and create_tables.py *)

Module RunnerFacts.
Import SqlQueries Db SqlText Properties.
Local Open Scope list_scope.
Local Open Scope py_scope.

Lemma for_each_cons {W A} (x : A) (rest : list A) (body : A -> M W unit) :
  for_each (x :: rest) body = bind (body x) (fun _ => for_each rest body).
Proof. reflexivity. Qed.

Section Loop.
Context {S : Type} (conn : Connection S).

Let body (query : string) : M (World S) unit :=
  execute conn query ;; commit conn.

Lemma body_outcome (q : string) (w : World S) :
  (fst (body q w) = Ok tt
   /\ calls (snd (body q w)) = calls w ++ [Execute q; Commit])
  \/ (exists e, fst (body q w) = Raise e
      /\ calls (snd (body q w)) = calls w ++ [Execute q]
      /\ exists s, fst (cur_execute conn q s) = Raise e)
  \/ (exists e, fst (body q w) = Raise e
      /\ calls (snd (body q w)) = calls w ++ [Execute q; Commit]
      /\ exists s, fst (conn_commit conn s) = Raise e).
Proof.
  unfold body, bind, execute, commit.
  destruct (cur_execute conn q (session w)) as [[[]|e] s1] eqn:Hx; cbn.
  - destruct (conn_commit conn s1) as [[[]|e] s2] eqn:Hc; cbn.
    + left. split; [reflexivity|]. now rewrite <- app_assoc.
    + right; right. exists e. split; [reflexivity|].
      split; [now rewrite <- app_assoc|].
      exists s1. now rewrite Hc.
  - right; left. exists e. split; [reflexivity|]. split; [reflexivity|].
    exists (session w). now rewrite Hx.
Qed.

Lemma for_each_runs (queries : list string) :
  runs_each_then_commits conn queries (for_each queries body).
Proof.
  induction queries as [|q rest IH]; intro w.
  - left. cbn. now rewrite app_nil_r.
  - cbn [for_each]. unfold bind.
    destruct (body_outcome q w) as [[Hr Hl] | [(e & Hr & Hl & Hs) | (e & Hr & Hl & Hs)]];
      destruct (body q w) as [r w1]; cbn [fst snd] in *; subst r;
      cbv beta iota.
    + destruct (IH w1) as [[Hr' Hl'] | (pre & q' & post & e & Hq & Hr' & Hcase)].
      * left. split; [exact Hr'|].
        rewrite Hl', Hl. cbn. now rewrite <- app_assoc.
      * right. exists (q :: pre), q', post, e.
        split; [now rewrite Hq|]. split; [exact Hr'|].
        destruct Hcase as [[Hc Hs] | [Hc Hs]]; [left | right];
          (split; [|exact Hs]); rewrite Hc, Hl; cbn;
          now rewrite <- app_assoc.
    + right. exists [], q, rest, e. cbn.
      split; [reflexivity|]. split; [reflexivity|]. left. now split.
    + right. exists [], q, rest, e. cbn.
      split; [reflexivity|]. split; [reflexivity|]. right. now split.
Qed.

(** Whatever every call preserves, the whole loop preserves. *)
Lemma for_each_preserves (I : S -> Prop) (queries : list string) :
  (forall q s, In q queries -> I s -> I (snd (cur_execute conn q s))) ->
  (forall s, I s -> I (snd (conn_commit conn s))) ->
  forall w, I (session w) -> I (session (snd (for_each queries body w))).
Proof.
  intros Hx Hc. induction queries as [|q rest IH]; intros w Hw.
  - exact Hw.
  - cbn [for_each]. unfold bind.
    assert (Hb : I (session (snd (body q w)))).
    { unfold body, bind, execute, commit.
      specialize (Hx q (session w) (or_introl eq_refl) Hw).
      destruct (cur_execute conn q (session w)) as [[[]|e] s1]; cbn in *.
      - specialize (Hc s1 Hx).
        destruct (conn_commit conn s1) as [[[]|e] s2]; cbn in *; exact Hc.
      - exact Hx. }
    destruct (body q w) as [[[]|e] w1]; cbn [fst snd] in *.
    + apply IH; [|exact Hb]. intros q' s' Hin. apply Hx. now right.
    + exact Hb.
Qed.

Lemma executed_app (l1 l2 : list db_call) :
  executed (l1 ++ l2) = executed l1 ++ executed l2.
Proof.
  induction l1 as [|[q|] l1 IH]; cbn; [reflexivity | now rewrite IH | exact IH].
Qed.

Lemma executed_each_committed (queries : list string) :
  executed (each_committed queries) = queries.
Proof.
  induction queries as [|q rest IH]; cbn; [reflexivity | f_equal; exact IH].
Qed.
End Loop.

End RunnerFacts.

Module RunnerTheorems.
Import SqlQueries Db SqlText Properties RunnerFacts.
Local Open Scope list_scope.

(** The statements a runner got to are an initial part of its list, and a
    non-empty one when the list is not empty. *)
Lemma executed_is_prefix {S} (conn : Connection S) (queries : list string)
    (runner : M (World S) unit) (s : S) :
  runs_each_then_commits conn queries runner ->
  exists k, (queries = [] \/ 0 < k)
            /\ executed (calls (snd (runner (start s)))) = firstn k queries.
Proof.
  intro H. destruct (H (start s)) as [[_ Hl] | (pre & q & post & e & Hq & _ & Hc)].
  - exists (List.length queries). split.
    + destruct queries; [now left | right; cbn; lia].
    + rewrite Hl. cbn. now rewrite executed_each_committed, firstn_all.
  - exists (List.length pre + 1). split; [right; lia|].
    assert (Hx : executed (calls (snd (runner (start s)))) = pre ++ [q]).
    { destruct Hc as [[Hl _] | [Hl _]]; rewrite Hl; cbn;
        rewrite executed_app, executed_each_committed; reflexivity. }
    rewrite Hx, Hq, firstn_app.
    replace (List.length pre + 1 - List.length pre) with 1 by lia.
    rewrite firstn_all2 by lia. reflexivity.
Qed.


(** A run of [drop_tables] in which the third statement is rejected: two
    statements committed, the third executed, the last four never issued. *)
Example drop_tables_stops_at_rejected_statement :
  CreateTables.drop_tables (Fixture.rejecting songplay_table_drop) (start tt)
  = (Raise (DatabaseError "syntax error"),
     {| calls := [Execute staging_events_table_drop; Commit;
                  Execute staging_songs_table_drop; Commit;
                  Execute songplay_table_drop];
        session := tt |}).
Proof. vm_compute. reflexivity. Qed.

(** C1.  The INSERT statements of [insert_table_queries] write, in list
    order, songplays, users, songs, artists and time: the fact table comes
    first, and every table the songplays DDL references comes at a later
    position.  Whatever the connection does, the statements [insert_tables]
    executes are an initial part of that list starting with the songplays
    insert. *)
Theorem songplays_insert_runs_first :
  map insert_target insert_table_queries
    = [Some "songplays"; Some "users"; Some "songs"; Some "artists"; Some "time"]
  /\ Forall (fun table =>
               exists j, 0 < j
                 /\ nth_error (map insert_target insert_table_queries) j
                    = Some (Some table))
            (references_of songplay_table_create)
  /\ forall (S : Type) (conn : Connection S) (s : S),
       exists k,
         executed (calls (snd (Etl.insert_tables conn (start s))))
           = firstn k insert_table_queries
         /\ hd_error (executed (calls (snd (Etl.insert_tables conn (start s)))))
            = Some songplay_table_insert.
Proof.
  split; [vm_compute; reflexivity|]. split.
  - replace (references_of songplay_table_create)
      with ["time"; "users"; "songs"; "artists"] by (vm_compute; reflexivity).
    repeat constructor.
    + exists 4. split; [lia | reflexivity].
    + exists 1. split; [lia | reflexivity].
    + exists 2. split; [lia | reflexivity].
    + exists 3. split; [lia | reflexivity].
  - intros S conn s.
    destruct (executed_is_prefix conn insert_table_queries
                (Etl.insert_tables conn) s (for_each_runs conn _))
      as (k & Hk & Hx).
    exists k. split; [exact Hx|]. rewrite Hx.
    destruct Hk as [Hk | Hk]; [discriminate Hk|].
    destruct k; [lia | reflexivity].
Qed.

End RunnerTheorems.

(** ** The transform stage on the warehouse *)

Module WarehouseFacts.
Import SqlQueries Db Warehouse Properties RunnerFacts.
Local Open Scope list_scope.

Lemma sql_eq_string (x y : option string) :
  sql_eq String.eqb x y = true <-> exists v, x = Some v /\ y = Some v.
Proof.
  destruct x as [a|], y as [b|]; cbn; split;
    try (intro H; discriminate H);
    try (intros (v & H1 & H2); discriminate).
  - intro H. apply String.eqb_eq in H. subst b. now exists a.
  - intros (v & H1 & H2). injection H1 as <-. injection H2 as <-.
    apply String.eqb_refl.
Qed.

Lemma sql_eq_Z (x y : option Z) :
  sql_eq Z.eqb x y = true <-> exists v, x = Some v /\ y = Some v.
Proof.
  destruct x as [a|], y as [b|]; cbn; split;
    try (intro H; discriminate H);
    try (intros (v & H1 & H2); discriminate).
  - intro H. apply Z.eqb_eq in H. subst b. now exists a.
  - intros (v & H1 & H2). injection H1 as <-. injection H2 as <-.
    apply Z.eqb_refl.
Qed.

(** The ON condition is the exact match of the spec. *)
Lemma join_on_exact (e : staging_event) (s : staging_song) :
  join_on e s = true <-> exact_match e s.
Proof.
  unfold join_on, exact_match.
  rewrite !andb_true_iff, !sql_eq_string, sql_eq_Z. split.
  - intros [[(a & Ha1 & Ha2) (d & Hd1 & Hd2)] (t & Ht1 & Ht2)].
    exists a, d, t. repeat split; assumption.
  - intros (a & d & t & Ha1 & Ha2 & Hd1 & Hd2 & Ht1 & Ht2).
    repeat split; eexists; split; eassumption.
Qed.

Lemma in_songplay_join (events : list staging_event)
    (songs : list staging_song) (e : staging_event) (s : staging_song) :
  In (e, s) (songplay_join events songs)
  <-> In e events /\ In s songs /\ join_on e s = true.
Proof.
  unfold songplay_join. rewrite in_flat_map. split.
  - intros (e' & He' & Hin). apply in_map_iff in Hin.
    destruct Hin as (s' & Heq & Hs'). injection Heq as <- <-.
    apply filter_In in Hs'. tauto.
  - intros (He & Hs & Hj). exists e. split; [exact He|].
    apply in_map. apply filter_In. tauto.
Qed.

Section Engine.
Context {D : Type} (eng : Engine D).

Lemma execute_songplay_insert (db : Database D) :
  engine_execute eng songplay_table_insert db = run_songplay_table_insert db.
Proof.
  unfold engine_execute. now rewrite String.eqb_refl.
Qed.

Lemma execute_dimension_insert (q : string) (db : Database D) :
  In q [user_table_insert; song_table_insert; artist_table_insert;
        time_table_insert] ->
  same_facts db (snd (engine_execute eng q db)).
Proof.
  intro Hq. unfold engine_execute.
  assert (Hn : String.eqb q songplay_table_insert = false).
  { destruct Hq as [<-|[<-|[<-|[<-|[]]]]]; vm_compute; reflexivity. }
  assert (Hd : is_dimension_insert q = true).
  { unfold is_dimension_insert.
    destruct Hq as [<-|[<-|[<-|[<-|[]]]]];
      rewrite ?String.eqb_refl, ?orb_true_r; reflexivity. }
  rewrite Hn, Hd.
  destruct (run_dimension_insert eng q (staging_events db) (staging_songs db)
              (dimensions db)) as [r d'].
  cbn. repeat split.
Qed.

Lemma same_facts_refl (db : Database D) : same_facts db db.
Proof. repeat split. Qed.

Lemma same_facts_trans (a b c : Database D) :
  same_facts a b -> same_facts b c -> same_facts a c.
Proof.
  unfold same_facts. intros (H1 & H2 & H3 & H4) (K1 & K2 & K3 & K4).
  repeat split; congruence.
Qed.
End Engine.

End WarehouseFacts.

Module WarehouseTheorems.
Import SqlQueries Db Warehouse Properties RunnerFacts WarehouseFacts.
Local Open Scope list_scope.

(** C7.  When the transform stage ([insert_tables]) completes on a
    warehouse, the rows it has added to songplays are the SELECT list applied
    to a list of (events row, songs row) pairs, and a pair is in that list
    exactly when both rows are in the staging tables and agree on artist
    name, duration and title; so an events row has a fact row if and only
    if some songs row matches it exactly on the three columns. *)
Theorem songplay_rows_iff_exact_join (D : Type) (eng : Engine D)
    (db : Database D) (w' : World (Database D)) :
  Etl.insert_tables (connect eng) (start db) = (Ok tt, w') ->
  exists pairs : list (staging_event * staging_song),
    songplays (session w')
      = songplays db
        ++ number_from (songplays_identity db) (map songplay_select pairs)
    /\ (forall e s,
          In (e, s) pairs
          <-> In e (staging_events db) /\ In s (staging_songs db)
              /\ exact_match e s)
    /\ (forall e,
          In e (staging_events db) ->
          ((exists s, In (e, s) pairs)
           <-> (exists s, In s (staging_songs db) /\ exact_match e s))).
Proof.
  intro Hrun.
  set (pairs := songplay_join (staging_events db) (staging_songs db)).
  assert (Hpairs : forall e s,
             In (e, s) pairs
             <-> In e (staging_events db) /\ In s (staging_songs db)
                 /\ exact_match e s).
  { intros e s. unfold pairs. rewrite in_songplay_join, join_on_exact.
    reflexivity. }
  exists pairs. split; [|split; [exact Hpairs|]].
  - unfold Etl.insert_tables, insert_table_queries in Hrun.
    rewrite for_each_cons in Hrun. unfold bind at 1 in Hrun.
    unfold bind at 1, execute at 1, commit at 1 in Hrun.
    cbn [session calls start connect cur_execute conn_commit] in Hrun.
    rewrite execute_songplay_insert in Hrun.
    unfold run_songplay_table_insert in Hrun. fold pairs in Hrun.
    destruct (forallb songplay_accepted (map songplay_select pairs));
      [|discriminate Hrun].
    cbn [session calls] in Hrun.
    match type of Hrun with
    | context [run_commit eng ?d] =>
        set (db1 := d) in *; destruct (run_commit eng db1) as [[]|e];
        [|discriminate Hrun]
    end.
    match type of Hrun with
    | for_each ?qs ?body ?w1 = _ =>
        pose proof (for_each_preserves (connect eng) (same_facts db1) qs) as Hkeep;
        specialize (Hkeep
          (fun q s Hin Hs =>
             same_facts_trans _ _ _ Hs (execute_dimension_insert eng q s Hin))
          (fun s Hs => Hs) w1 (same_facts_refl db1))
    end.
    cbv beta in Hkeep. rewrite Hrun in Hkeep. cbn [snd] in Hkeep.
    destruct Hkeep as (_ & _ & Hsp & _). rewrite Hsp. reflexivity.
  - intros e He. split.
    + intros (s & Hin). apply Hpairs in Hin. exists s. tauto.
    + intros (s & Hs & Hm). exists s. apply Hpairs. tauto.
Qed.

(** The transform of the fixture completes and leaves exactly one fact row,
    for the event that matches. *)
Lemma songplay_rows_iff_exact_join_witness :
  exists w',
    Etl.insert_tables (connect Fixture.engine) (start Fixture.loaded)
      = (Ok tt, w')
    /\ List.length (songplays (session w')) = 1
    /\ exists pairs : list (staging_event * staging_song),
         songplays (session w')
           = songplays Fixture.loaded
             ++ number_from (songplays_identity Fixture.loaded)
                            (map songplay_select pairs)
         /\ (forall e s,
               In (e, s) pairs
               <-> In e (staging_events Fixture.loaded)
                   /\ In s (staging_songs Fixture.loaded)
                   /\ exact_match e s)
         /\ (forall e,
               In e (staging_events Fixture.loaded) ->
               ((exists s, In (e, s) pairs)
                <-> (exists s, In s (staging_songs Fixture.loaded)
                               /\ exact_match e s))).
Proof.
  eexists. split; [vm_compute; reflexivity|].
  split; [vm_compute; reflexivity|].
  apply (songplay_rows_iff_exact_join unit Fixture.engine Fixture.loaded).
  vm_compute; reflexivity.
Defined.

End WarehouseTheorems.

(** ** The lifecycle tool *)

Module IacFacts.
Import Py Aws RedshiftIac IacProperties.
Local Open Scope list_scope.

Lemma trace_of_app {C A} (m : M (World C) A) (w : World C) (new : list event) :
  log (snd (m w)) = log w ++ new -> trace m w = new.
Proof.
  intro H. unfold trace. rewrite H, skipn_app, skipn_all, Nat.sub_diag.
  reflexivity.
Qed.

(** One step of a run: unfold the combinators at the head of the goal. *)
Ltac run :=
  unfold bind, try_except, call, lift, print, sleep, emit, ret, raise,
         any_Exception;
  cbn [cloud log config fst snd].

Ltac tidy := rewrite <- ?app_assoc; cbn [app].

(** Case analysis on the next answer of the outside world, or on the next
    subscript or test, in a goal about a run. *)
Ltac innermost t :=
  lazymatch t with
  | context [match _ with pair _ _ => _ end] => fail
  | context [match _ with Ok _ => _ | Raise _ => _ end] => fail
  | context [if _ then _ else _] => fail
  | context [match _ with Some _ => _ | None => _ end] => fail
  | context [match _ with nil => _ | cons _ _ => _ end] => fail
  | context [match _ with PStr _ => _ | _ => _ end] => fail
  | _ => idtac
  end.

Ltac answer :=
  match goal with
  | |- context [match ?t with pair _ _ => _ end] =>
      innermost t; destruct t as [[?|?] ?] eqn:?
  | |- context [match ?t with Ok _ => _ | Raise _ => _ end] =>
      innermost t; destruct t eqn:?
  | |- context [if ?t then _ else _] => innermost t; destruct t eqn:?
  | |- context [match ?t with Some _ => _ | None => _ end] =>
      innermost t; destruct t eqn:?
  | |- context [match ?t with nil => _ | cons _ _ => _ end] =>
      innermost t; destruct t eqn:?
  | |- context [match ?t with PStr _ => _ | _ => _ end] =>
      innermost t; destruct t eqn:?
  end; cbn [cloud log config fst snd].

(** A run ends: its log is the old one followed by the events listed. *)
Ltac extends :=
  eexists; split;
  [cbn [log snd]; tidy; first [reflexivity | symmetry; apply app_nil_r]|].

Section Logs.
Context {C : Type}.

Lemma create_iam_role_quiet (iam : IamClient C) (name : string) :
  adds quiet (create_iam_role iam name).
Proof.
  intro w. unfold create_iam_role. run.
  repeat answer; extends; reflexivity.
Qed.

Lemma create_security_group_quiet (ec2_client : Ec2Client C)
    (ec2_resource : Ec2Resource C) (name : string) :
  adds quiet (create_security_group ec2_client ec2_resource name).
Proof.
  intro w. unfold create_security_group. run.
  repeat answer; extends; reflexivity.
Qed.

Lemma get_public_ip_quiet (requests : Requests C) :
  adds quiet (get_public_ip requests).
Proof.
  intro w. unfold get_public_ip, raise_for_status. run.
  repeat answer; extends; reflexivity.
Qed.

(** A group object comes back only after the creation call. *)
Lemma create_security_group_calls (ec2_client : Ec2Client C)
    (ec2_resource : Ec2Resource C) (name : string) (w w' : World C)
    (g : SecurityGroup) :
  create_security_group ec2_client ec2_resource name w = (Ok g, w') ->
  exists new, log w' = log w ++ new /\ existsb creates_group new = true.
Proof.
  unfold create_security_group. run.
  repeat answer; intro H; try discriminate H;
    injection H as <- <-; extends; reflexivity.
Qed.

(** The added events of a run whose log is the old one and more. *)
Lemma skipn_added (old new : list event) :
  skipn (List.length old) (old ++ new) = new.
Proof.
  now rewrite skipn_app, skipn_all, Nat.sub_diag.
Qed.



(** A failed status read is reported as no state and no endpoint. *)
Lemma get_cluster_info_failed_read (redshift : RedshiftClient C)
    (w : World C) (e : exn) (c' : C) :
  describe_clusters redshift "dwhCluster" (cloud w) = (Raise e, c') ->
  fst (get_cluster_info redshift w) = Ok (PNone, PNone).
Proof.
  intro H. unfold get_cluster_info. run. rewrite H. reflexivity.
Qed.

Lemma get_cluster_info_never_raises (redshift : RedshiftClient C)
    (w : World C) :
  is_raise (fst (get_cluster_info redshift w)) = false.
Proof.
  unfold get_cluster_info. run. repeat answer; reflexivity.
Qed.
End Logs.

End IacFacts.

Module IacTheorems.
Import Py Aws RedshiftIac IacProperties IacFacts.
Local Open Scope list_scope.

(** C10.  When the group-creation call raises, [create_security_group]
    prints the error in its handler and then fails at [return
    security_group] with an unbound-local error: it neither returns a
    security-group object nor lets the original exception through. *)
Theorem create_security_group_unbound_local (C : Type)
    (ec2_client : Ec2Client C) (ec2_resource : Ec2Resource C)
    (group_name : string) (w : World C) (e : exn) (c' : C) :
  Aws.create_security_group ec2_client "Authorise redshift cluster access"
    group_name (cloud w) = (Raise e, c') ->
  create_security_group ec2_client ec2_resource group_name w
  = (Raise (UnboundLocalError "security_group"),
     {| log := log w
               ++ [Api (CreateSecurityGroup "Authorise redshift cluster access"
                          group_name);
                   Print [Lit "Error creating security group: "; Err e]];
        cloud := c';
        config := config w |}).
Proof.
  intro Hcreate. unfold create_security_group. run.
  rewrite Hcreate. run. tidy. reflexivity.
Qed.

(** In an account that already has a group of that name the creation call
    answers [InvalidGroup.Duplicate]. *)
Lemma create_security_group_unbound_local_witness :
  Aws.create_security_group Account.ec2_client
    "Authorise redshift cluster access" default_group_name
    (cloud Account.with_group)
  = (Raise (ClientError "InvalidGroup.Duplicate"
              "The security group 'redshift_security_group' already exists"),
     cloud Account.with_group)
  /\ create_security_group Account.ec2_client Account.ec2_resource
       default_group_name Account.with_group
     = (Raise (UnboundLocalError "security_group"),
        {| log := log Account.with_group
                  ++ [Api (CreateSecurityGroup
                             "Authorise redshift cluster access"
                             default_group_name);
                      Print [Lit "Error creating security group: ";
                             Err (ClientError "InvalidGroup.Duplicate"
                                    "The security group 'redshift_security_group' already exists")]];
           cloud := cloud Account.with_group;
           config := config Account.with_group |}).
Proof.
  split; [vm_compute; reflexivity|].
  apply create_security_group_unbound_local. vm_compute; reflexivity.
Defined.

(** C5.  When [create_role] raises (the role already exists), the error is
    printed and swallowed, and [create_iam_role] goes on to attach the S3
    read-only policy, read the role back and return its ARN. *)
Theorem create_iam_role_existing (C : Type) (iam : IamClient C)
    (iam_RoleName : string) (w : World C) (e : exn)
    (attached metadata code got role roleArn : pyval) (c1 c2 c3 : C) :
  create_role iam "/" iam_RoleName
    "Allows Redshift clusters to call AWS services on your behalf."
    assume_role_policy_document (cloud w) = (Raise e, c1) ->
  attach_role_policy iam iam_RoleName s3_read_only_policy c1
    = (Ok attached, c2) ->
  getitem attached "ResponseMetadata" = Ok metadata ->
  getitem metadata "HTTPStatusCode" = Ok code ->
  get_role iam iam_RoleName c2 = (Ok got, c3) ->
  getitem got "Role" = Ok role ->
  getitem role "Arn" = Ok roleArn ->
  create_iam_role iam iam_RoleName w
  = (Ok roleArn,
     {| log := log w
               ++ [Print [Lit "Creating a new IAM Role: "; Lit iam_RoleName];
                   Api (CreateRole "/" iam_RoleName
                          "Allows Redshift clusters to call AWS services on your behalf."
                          assume_role_policy_document);
                   Print [Err e];
                   Api (AttachRolePolicy iam_RoleName s3_read_only_policy);
                   Api (GetRole iam_RoleName);
                   Print [Lit "The ARN of the IAM role was successfully created!";
                          Lit SqlQueries.nl; Val roleArn]];
        cloud := c3;
        config := config w |}).
Proof.
  intros Hcreate Hattach Hmeta Hcode Hget Hrole Harn.
  unfold create_iam_role. run.
  rewrite Hcreate. run. rewrite Hattach. run. rewrite Hmeta, Hcode. run.
  rewrite Hget. run. rewrite Hrole, Harn. run. tidy. reflexivity.
Qed.

(** In an account that has the role, creation answers
    [EntityAlreadyExists] and the ARN still comes back. *)
Lemma create_iam_role_existing_witness :
  create_iam_role Account.iam default_role_name Account.with_role
  = (Ok (PStr (Account.role_arn default_role_name)),
     {| log := log Account.with_role
               ++ [Print [Lit "Creating a new IAM Role: "; Lit default_role_name];
                   Api (CreateRole "/" default_role_name
                          "Allows Redshift clusters to call AWS services on your behalf."
                          assume_role_policy_document);
                   Print [Err (ClientError "EntityAlreadyExists"
                                 "Role with name dwh_iam_role already exists.")];
                   Api (AttachRolePolicy default_role_name s3_read_only_policy);
                   Api (GetRole default_role_name);
                   Print [Lit "The ARN of the IAM role was successfully created!";
                          Lit SqlQueries.nl;
                          Val (PStr (Account.role_arn default_role_name))]];
        cloud := cloud Account.with_role;
        config := config Account.with_role |}).
Proof.
  eapply (create_iam_role_existing Account.Cloud Account.iam default_role_name
           Account.with_role
           (ClientError "EntityAlreadyExists"
              "Role with name dwh_iam_role already exists.")
           Account.http_ok
           (PDict [("HTTPStatusCode", PInt 200)]) (PInt 200)
           (Account.role_description default_role_name)
           (PDict [("RoleName", PStr default_role_name);
                   ("Arn", PStr (Account.role_arn default_role_name))])
           (PStr (Account.role_arn default_role_name))
           (cloud Account.with_role));
    vm_compute; reflexivity.
Defined.

(** C2, as the code has it.  [delete_security_group] and
    [delete_redshift_cluster] never raise, whatever the services answer, so
    deleting a group or a cluster that is not there does not raise;
    [delete_iam_role] has no handler: it raises what [detach_role_policy]
    raises, and otherwise what [delete_role] raises. *)
Theorem deletes_raise_only_for_the_role (C : Type) (iam : IamClient C)
    (ec2_resource : Ec2Resource C) (redshift : RedshiftClient C)
    (iam_RoleName group_name cluster_identifier : string) (w : World C) :
  fst (delete_security_group ec2_resource group_name w) = Ok tt
  /\ fst (delete_redshift_cluster redshift cluster_identifier w) = Ok tt
  /\ fst (delete_iam_role iam iam_RoleName w)
     = match detach_role_policy iam iam_RoleName s3_read_only_policy (cloud w)
       with
       | (Raise e, _) => Raise e
       | (Ok _, c1) => fst (delete_role iam iam_RoleName c1)
       end.
Proof.
  split; [|split].
  - unfold delete_security_group. run. repeat answer; reflexivity.
  - unfold delete_redshift_cluster. run. repeat answer; reflexivity.
  - unfold delete_iam_role. run. repeat answer; reflexivity.
Qed.

(** C2 fails for the role: in an account without the role,
    [delete_iam_role] raises the service's [NoSuchEntity]. *)
Lemma delete_iam_role_missing_role_raises :
  Account.has default_role_name (Account.roles (cloud Account.fresh)) = false
  /\ fst (delete_iam_role Account.iam default_role_name Account.fresh)
     = Raise (Account.no_such_entity default_role_name)
  /\ is_raise (fst (delete_iam_role Account.iam default_role_name
                      Account.fresh)) = true.
Proof.
  vm_compute. repeat split.
Qed.



(** C3, as the code has it.  When the role and the security group have been
    created and [get_public_ip] yields no address ([None] or an empty
    string), [init] raises the fatal exception right there: no ingress rule
    is authorized and no cluster is requested.  The security group has
    already been created by then. *)
Theorem init_without_public_ip (C : Type) (s : Settings) (aws : Clients C)
    (w w1 w2 w3 : World C) (iam_role : pyval) (sec_group : SecurityGroup)
    (public_ip : option string) :
  create_iam_role (iam aws) default_role_name w = (Ok iam_role, w1) ->
  create_security_group (ec2_client aws) (ec2_resource aws)
    default_group_name w1 = (Ok sec_group, w2) ->
  get_public_ip (requests aws) w2 = (Ok public_ip, w3) ->
  truthy public_ip = false ->
  init s aws w
    = (Raise (PyException "Failed to retrieve public IP address"), w3)
  /\ existsb opens_access (trace (init s aws) w) = false
  /\ existsb creates_group (trace (init s aws) w) = true.
Proof.
  intros Hrole Hgroup Hip Hnone.
  assert (Hinit : init s aws w
            = (Raise (PyException "Failed to retrieve public IP address"), w3)).
  { unfold init. unfold bind at 1. rewrite Hrole.
    unfold bind at 1. rewrite Hgroup.
    unfold bind at 1. rewrite Hip.
    unfold bind at 1. rewrite Hnone. reflexivity. }
  split; [exact Hinit|].
  destruct (create_iam_role_quiet (iam aws) default_role_name w)
    as (l1 & Hl1 & Hq1).
  destruct (create_security_group_quiet (ec2_client aws) (ec2_resource aws)
              default_group_name w1) as (l2 & Hl2 & Hq2).
  destruct (get_public_ip_quiet (requests aws) w2) as (l3 & Hl3 & Hq3).
  destruct (create_security_group_calls _ _ _ _ _ _ Hgroup)
    as (l2' & Hl2' & Hcreated).
  rewrite Hrole in Hl1. rewrite Hgroup in Hl2. rewrite Hip in Hl3.
  cbn [snd] in Hl1, Hl2, Hl3.
  assert (l2' = l2) as ->.
  { rewrite Hl2 in Hl2'. now apply app_inv_head in Hl2'. }
  assert (Htrace : trace (init s aws) w = l1 ++ l2 ++ l3).
  { apply trace_of_app. rewrite Hinit. cbn [snd].
    now rewrite Hl3, Hl2, Hl1, <- !app_assoc. }
  rewrite Htrace, !existsb_app. unfold quiet in *.
  rewrite Hq1, Hq2, Hq3, Hcreated. split; [reflexivity|].
  now rewrite orb_true_r.
Qed.

(** An account without resources whose IP service is down. *)
Lemma init_without_public_ip_witness :
  init Account.settings Account.clients Account.fresh
    = (Raise (PyException "Failed to retrieve public IP address"),
       snd (init Account.settings Account.clients Account.fresh))
  /\ existsb opens_access
       (trace (init Account.settings Account.clients) Account.fresh) = false
  /\ existsb creates_group
       (trace (init Account.settings Account.clients) Account.fresh) = true.
Proof.
  eapply (init_without_public_ip Account.Cloud Account.settings
            Account.clients Account.fresh);
    vm_compute; reflexivity.
Defined.

(** C3 fails on the group: with the IP service down, [init] reports the
    failure after the security group has been created, and leaves it in
    the account without any ingress rule. *)
Lemma init_leaves_group_behind :
  Account.groups (cloud Account.fresh) = []
  /\ fst (init Account.settings Account.clients Account.fresh)
     = Raise (PyException "Failed to retrieve public IP address")
  /\ Account.groups
       (cloud (snd (init Account.settings Account.clients Account.fresh)))
     = [("sg-redshift_security_group", default_group_name)]
  /\ Account.rules
       (cloud (snd (init Account.settings Account.clients Account.fresh)))
     = [].
Proof.
  vm_compute. repeat split.
Qed.





End IacTheorems.


(** ** The [main] functions *)

Module ScriptFacts.
Import SqlQueries Db SqlText Properties RunnerFacts Scripts ScriptProperties.
Local Open Scope list_scope.

Lemma db_calls_app (a b : list step) :
  db_calls (a ++ b) = db_calls a ++ db_calls b.
Proof. unfold db_calls. apply flat_map_app. Qed.

Lemma db_calls_map_Call (l : list db_call) : db_calls (map Call l) = l.
Proof.
  induction l as [|c l IH]; cbn; [reflexivity | f_equal; exact IH].
Qed.

Lemma closes_app (a b : list step) : closes (a ++ b) = closes a || closes b.
Proof. unfold closes. apply existsb_app. Qed.

Lemma closes_map_Call (l : list db_call) : closes (map Call l) = false.
Proof. induction l as [|c l IH]; cbn; [reflexivity | exact IH]. Qed.

Lemma each_committed_app (a b : list string) :
  each_committed (a ++ b) = each_committed a ++ each_committed b.
Proof. unfold each_committed. apply flat_map_app. Qed.

Lemma is_prefix_refl {A} (l : list A) : is_prefix l l.
Proof. exists []. now rewrite app_nil_r. Qed.

Lemma is_prefix_nil {A} (l : list A) : is_prefix [] l.
Proof. now exists l. Qed.

(** How far a runner got is an initial part of its full call list. *)
Lemma stopped_is_prefix (pre post : list string) (q : string)
    (tail : list db_call) :
  tail = [] \/ tail = [Commit] ->
  is_prefix (each_committed pre ++ Execute q :: tail)
            (each_committed (pre ++ q :: post)).
Proof.
  intros [-> | ->]; rewrite each_committed_app; cbn.
  - exists (Commit :: each_committed post). now rewrite <- app_assoc.
  - exists (each_committed post). now rewrite <- app_assoc.
Qed.

Section Cursor.
Context {S : Type} (conn : Connection S).

(** A runner under [with_cursor]: through its list, or stopped in it. *)
Lemma with_cursor_cases (queries : list string) (runner : M (World S) unit)
    (s : S) (done : list step) :
  runs_each_then_commits conn queries runner ->
  (exists s', with_cursor runner s done
              = (Ok s', done ++ map Call (each_committed queries)))
  \/ (exists e pre q post tail,
        queries = pre ++ q :: post
        /\ (tail = [] \/ tail = [Commit])
        /\ with_cursor runner s done
           = (Raise e, done ++ map Call (each_committed pre ++ Execute q :: tail))).
Proof.
  intro Hrun. unfold with_cursor.
  destruct (Hrun (start s)) as [[Hr Hl] | (pre & q & post & e & Hq & Hr & Hc)];
    destruct (runner (start s)) as [r w]; cbn [fst snd calls start] in *;
    subst r.
  - left. exists (session w). now rewrite Hl.
  - right. exists e, pre, q, post.
    destruct Hc as [[Hl _] | [Hl _]]; rewrite Hl.
    + exists []. split; [exact Hq|]. split; [now left|]. reflexivity.
    + exists [Commit]. split; [exact Hq|]. split; [now right|]. reflexivity.
Qed.
End Cursor.

Section Mains.
Context {S : Type} (psycopg2 : Psycopg2 S).

(** Every run of a two-stage script: the calls made are an initial part of
    the two lists' calls; the connection is closed only after all of them;
    and a run that returns has closed it. *)
Lemma two_stage_run (l1 l2 : list string) (first second : M (World S) unit)
    (config : Aws.ConfigParser) :
  runs_each_then_commits (connection psycopg2) l1 first ->
  runs_each_then_commits (connection psycopg2) l2 second ->
  let out := two_stage psycopg2 first second config [] in
  is_prefix (db_calls (snd out)) (each_committed (l1 ++ l2))
  /\ (closes (snd out) = false
      \/ db_calls (snd out) = each_committed (l1 ++ l2))
  /\ (is_raise (fst out) = true \/ closes (snd out) = true).
Proof.
  intros H1 H2. unfold two_stage, bind, open_connection, close_connection.
  destruct (connect_args config) as [args|e]; cbn [app].
  2:{ cbn. split; [apply is_prefix_nil|]. split; left; reflexivity. }
  destruct (connect psycopg2 args) as [s0|e].
  2:{ cbn. split; [apply is_prefix_nil|]. split; left; reflexivity. }
  destruct (with_cursor_cases _ l1 first s0 [Connect args] H1)
    as [(s1 & ->) | (e & pre & q & post & tail & -> & Htail & ->)].
  2:{ cbn [fst snd]. rewrite db_calls_app, db_calls_map_Call, closes_app,
        closes_map_Call. cbn. split; [|split; left; reflexivity].
      destruct (stopped_is_prefix pre post q tail Htail) as (rest & Hrest).
      exists (rest ++ each_committed l2).
      rewrite (each_committed_app (pre ++ q :: post) l2), Hrest.
      now rewrite <- !app_assoc. }
  destruct (with_cursor_cases _ l2 second s1
              ([Connect args] ++ map Call (each_committed l1)) H2)
    as [(s2 & ->) | (e & pre & q & post & tail & -> & Htail & ->)].
  2:{ cbn [fst snd].
      rewrite !db_calls_app, !db_calls_map_Call, !closes_app,
        !closes_map_Call. cbn. split; [|split; left; reflexivity].
      destruct (stopped_is_prefix pre post q tail Htail) as (rest & Hrest).
      exists rest.
      rewrite (each_committed_app l1 (pre ++ q :: post)), Hrest.
      now rewrite <- !app_assoc. }
  cbn [fst snd].
  rewrite !db_calls_app, !db_calls_map_Call, !closes_app, !closes_map_Call.
  cbn. rewrite app_nil_r, each_committed_app.
  split; [apply is_prefix_refl|]. split; right; reflexivity.
Qed.

End Mains.

End ScriptFacts.

Module ScriptTheorems.
Import SqlQueries Db SqlText Properties RunnerFacts Scripts ScriptProperties
       ScriptFacts ConfigFile.
Local Open Scope list_scope.


(** X1.  Both scripts make their calls in one fixed order: what a run of
    etl.py's [main] has issued on its connection is an initial part of
    "execute, commit" for both COPY statements and then the five INSERTs,
    and for create_tables.py's [main] of the seven DROPs and then the seven
    CREATEs.  No INSERT is issued before both loads are committed and no
    CREATE before every DROP is. *)
Theorem mains_call_in_list_order (S : Type) (psycopg2 : Psycopg2 S)
    (config : Aws.ConfigParser) (cfg : S3Config) :
  is_prefix (db_calls (snd (etl_main psycopg2 config cfg [])))
            (each_committed (copy_table_queries cfg ++ insert_table_queries))
  /\ is_prefix (db_calls (snd (create_tables_main psycopg2 config [])))
               (each_committed (drop_table_queries ++ create_table_queries)).
Proof.
  split.
  - apply (two_stage_run psycopg2 (copy_table_queries cfg) insert_table_queries
             _ _ config); apply for_each_runs.
  - apply (two_stage_run psycopg2 drop_table_queries create_table_queries
             _ _ config); apply for_each_runs.
Qed.


(** A rejected INSERT: [main] raises and the connection stays open. *)
Example etl_main_leaves_connection_open :
  fst (etl_main (Scenarios.rejecting song_table_insert)
         Scenarios.dwh_cfg_with_host Scenarios.s3 [])
    = Raise (DatabaseError "syntax error")
  /\ closes (snd (etl_main (Scenarios.rejecting song_table_insert)
                    Scenarios.dwh_cfg_with_host Scenarios.s3 [])) = false
  /\ connects (snd (etl_main (Scenarios.rejecting song_table_insert)
                      Scenarios.dwh_cfg_with_host Scenarios.s3 [])) = true.
Proof. vm_compute. repeat split. Qed.



End ScriptTheorems.

(** ** More on the transform stage *)

Module TransformFacts.
Import SqlQueries Db SqlText Warehouse Properties RunnerFacts WarehouseFacts
       WarehouseProperties.
Local Open Scope list_scope.

Section Engine.
Context {D : Type} (eng : Engine D).

(** What a completed transform has done to the fact table. *)
Lemma transform_effect (db : Database D) (w' : World (Database D)) :
  Etl.insert_tables (connect eng) (start db) = (Ok tt, w') ->
  staging_events (session w') = staging_events db
  /\ staging_songs (session w') = staging_songs db
  /\ songplays (session w')
     = songplays db ++ number_from (songplays_identity db) (selected db)
  /\ songplays_identity (session w')
     = (songplays_identity db + Z.of_nat (List.length (selected db)))%Z.
Proof.
  intro Hrun.
  unfold Etl.insert_tables, insert_table_queries in Hrun.
  rewrite for_each_cons in Hrun. unfold bind at 1 in Hrun.
  unfold bind at 1, execute at 1, commit at 1 in Hrun.
  cbn [session calls start connect cur_execute conn_commit] in Hrun.
  rewrite execute_songplay_insert in Hrun.
  unfold run_songplay_table_insert in Hrun. fold (selected db) in Hrun.
  destruct (forallb songplay_accepted (selected db)); [|discriminate Hrun].
  cbn [session calls] in Hrun.
  match type of Hrun with
  | context [run_commit eng ?d] =>
      set (db1 := d) in *; destruct (run_commit eng db1) as [[]|e];
      [|discriminate Hrun]
  end.
  match type of Hrun with
  | for_each ?qs ?body ?w1 = _ =>
      pose proof (for_each_preserves (connect eng) (same_facts db1) qs) as Hkeep;
      specialize (Hkeep
        (fun q s Hin Hs =>
           same_facts_trans _ _ _ Hs (execute_dimension_insert eng q s Hin))
        (fun s Hs => Hs) w1 (same_facts_refl db1))
  end.
  cbv beta in Hkeep. rewrite Hrun in Hkeep. cbn [snd] in Hkeep.
  destruct Hkeep as (He & Hs & Hsp & Hid).
  rewrite He, Hs, Hsp, Hid. repeat split.
Qed.

(** One row the engine does not accept stops the transform at its first
    statement. *)
Lemma transform_rejected (db : Database D) :
  forallb songplay_accepted (selected db) = false ->
  Etl.insert_tables (connect eng) (start db)
  = (Raise (DatabaseError "constraint violation in songplays"),
     {| calls := [Execute songplay_table_insert]; session := db |}).
Proof.
  intro Hbad.
  unfold Etl.insert_tables, insert_table_queries.
  rewrite for_each_cons. unfold bind at 1.
  unfold bind at 1, execute at 1.
  cbn [session calls start connect cur_execute conn_commit].
  rewrite execute_songplay_insert.
  unfold run_songplay_table_insert. fold (selected db). rewrite Hbad.
  reflexivity.
Qed.
End Engine.

Lemma number_from_length (next : Z) (rows : list songplay) :
  List.length (number_from next rows) = List.length rows.
Proof.
  revert next. induction rows as [|r rows IH]; intro next; cbn;
    [reflexivity | now rewrite IH].
Qed.

Lemma map_snd_number_from (next : Z) (rows : list songplay) :
  map snd (number_from next rows) = rows.
Proof.
  revert next. induction rows as [|r rows IH]; intro next; cbn;
    [reflexivity | now rewrite IH].
Qed.

Lemma songplay_join_length (events : list staging_event)
    (songs : list staging_song) :
  List.length (songplay_join events songs) = list_sum (map (matches songs) events).
Proof.
  unfold songplay_join, matches.
  induction events as [|e events IH]; cbn; [reflexivity|].
  now rewrite length_app, length_map, IH.
Qed.

Lemma join_on_needs_values (e : staging_event) (s : staging_song) :
  artist e = None \/ length e = None \/ song e = None ->
  join_on e s = false.
Proof.
  unfold join_on. intros [H | [H | H]]; rewrite H; cbn.
  - reflexivity.
  - now rewrite andb_false_r.
  - now rewrite andb_false_r.
Qed.

End TransformFacts.

Module TransformTheorems.
Import SqlQueries Db SqlText Warehouse Properties RunnerFacts WarehouseFacts
       WarehouseProperties TransformFacts.
Local Open Scope list_scope.

(** X4.  An events row whose artist, song or length is NULL joins to no
    songs row, not even to one that is NULL in the same column: it never
    yields a songplays row. *)
Theorem null_columns_never_join (e : staging_event)
    (events : list staging_event) (songs : list staging_song)
    (s : staging_song) :
  artist e = None \/ length e = None \/ song e = None ->
  ~ In (e, s) (songplay_join events songs).
Proof.
  intros Hnull Hin. apply in_songplay_join in Hin.
  destruct Hin as (_ & _ & Hjoin).
  rewrite (join_on_needs_values e s Hnull) in Hjoin. discriminate Hjoin.
Qed.

(** A page view against a song row that is NULL in all three columns. *)
Lemma null_columns_never_join_witness :
  (artist Scenarios.page_view = None
   \/ length Scenarios.page_view = None \/ song Scenarios.page_view = None)
  /\ ~ In (Scenarios.page_view, Scenarios.blank_song)
          (songplay_join [Scenarios.page_view] [Scenarios.blank_song]).
Proof.
  split; [left; reflexivity|].
  apply null_columns_never_join. left. reflexivity.
Defined.

(** X5.  A completed transform adds, for each events row, as many songplays
    rows as there are songs rows it joins to: nothing is deduplicated, so a
    song loaded twice doubles the plays of that song. *)
Theorem transform_adds_a_row_per_match (D : Type) (eng : Engine D)
    (db : Database D) (w' : World (Database D)) :
  Etl.insert_tables (connect eng) (start db) = (Ok tt, w') ->
  List.length (songplays (session w'))
  = List.length (songplays db)
    + list_sum (map (matches (staging_songs db)) (staging_events db)).
Proof.
  intro Hrun. destruct (transform_effect eng db w' Hrun) as (_ & _ & Hsp & _).
  rewrite Hsp, length_app, number_from_length. unfold selected.
  now rewrite length_map, songplay_join_length.
Qed.

(** With the matching song loaded twice, the one matching event has two
    fact rows. *)
Lemma transform_adds_a_row_per_match_witness :
  exists w',
    Etl.insert_tables (connect Fixture.engine)
      (start Scenarios.with_duplicate_song) = (Ok tt, w')
    /\ map (matches (staging_songs Scenarios.with_duplicate_song))
           (staging_events Scenarios.with_duplicate_song) = [2; 0]
    /\ List.length (songplays (session w'))
       = List.length (songplays Scenarios.with_duplicate_song)
         + list_sum (map (matches (staging_songs Scenarios.with_duplicate_song))
                         (staging_events Scenarios.with_duplicate_song)).
Proof.
  eexists. split; [vm_compute; reflexivity|].
  split; [vm_compute; reflexivity|].
  apply (transform_adds_a_row_per_match unit Fixture.engine).
  vm_compute; reflexivity.
Defined.

(** X6.  When one joined row violates a column constraint of songplays (a
    NULL user id, start time or level, a level longer than four characters,
    a session id outside INT), the transform raises at its first statement:
    no fact row is added, nothing is committed and no dimension INSERT is
    executed. *)
Theorem transform_stops_at_rejected_row (D : Type) (eng : Engine D)
    (db : Database D) (e : staging_event) (s : staging_song) :
  In e (staging_events db) ->
  In s (staging_songs db) ->
  join_on e s = true ->
  songplay_accepted (songplay_select (e, s)) = false ->
  Etl.insert_tables (connect eng) (start db)
  = (Raise (DatabaseError "constraint violation in songplays"),
     {| calls := [Execute songplay_table_insert]; session := db |}).
Proof.
  intros He Hs Hjoin Hbad. apply transform_rejected.
  destruct (forallb songplay_accepted (selected db)) eqn:Hall; [|reflexivity].
  rewrite forallb_forall in Hall.
  rewrite <- Hbad. symmetry. apply Hall. unfold selected.
  apply (in_map songplay_select _ (e, s)). apply in_songplay_join. tauto.
Qed.

(** A matching play without a user id. *)
Lemma transform_stops_at_rejected_row_witness :
  Etl.insert_tables (connect Fixture.engine) (start Scenarios.with_anonymous_play)
  = (Raise (DatabaseError "constraint violation in songplays"),
     {| calls := [Execute songplay_table_insert];
        session := Scenarios.with_anonymous_play |}).
Proof.
  apply (transform_stops_at_rejected_row unit Fixture.engine
           Scenarios.with_anonymous_play Scenarios.anonymous_play
           (Fixture.track "1" "Des'ree" "You Gotta Be" 246));
    vm_compute; tauto.
Defined.

(** X7.  The transform is not idempotent: run a second time on the same
    staging tables, it appends the same selected rows to songplays once
    more. *)
Theorem transform_twice_duplicates (D : Type) (eng : Engine D)
    (db : Database D) (w1 w2 : World (Database D)) :
  Etl.insert_tables (connect eng) (start db) = (Ok tt, w1) ->
  Etl.insert_tables (connect eng) (start (session w1)) = (Ok tt, w2) ->
  map snd (songplays (session w2))
  = map snd (songplays db) ++ selected db ++ selected db.
Proof.
  intros H1 H2.
  destruct (transform_effect eng db w1 H1) as (He1 & Hs1 & Hsp1 & Hid1).
  destruct (transform_effect eng (session w1) w2 H2) as (_ & _ & Hsp2 & _).
  rewrite Hsp2, Hsp1. unfold selected at 2. rewrite He1, Hs1.
  fold (selected db).
  now rewrite !map_app, !map_snd_number_from, <- app_assoc.
Qed.

(** The fixture's one matching play is in the fact table twice. *)
Lemma transform_twice_duplicates_witness :
  exists w1 w2,
    Etl.insert_tables (connect Fixture.engine) (start Fixture.loaded)
      = (Ok tt, w1)
    /\ Etl.insert_tables (connect Fixture.engine) (start (session w1))
       = (Ok tt, w2)
    /\ List.length (selected Fixture.loaded) = 1
    /\ map snd (songplays (session w2))
       = map snd (songplays Fixture.loaded)
         ++ selected Fixture.loaded ++ selected Fixture.loaded.
Proof.
  set (w1 := snd (Etl.insert_tables (connect Fixture.engine)
                    (start Fixture.loaded))).
  set (w2 := snd (Etl.insert_tables (connect Fixture.engine)
                    (start (session w1)))).
  exists w1, w2. split; [vm_compute; reflexivity|].
  split; [vm_compute; reflexivity|].
  split; [vm_compute; reflexivity|].
  apply (transform_twice_duplicates unit Fixture.engine Fixture.loaded w1 w2);
    vm_compute; reflexivity.
Defined.

End TransformTheorems.

(** ** The order of the schema *)

Module DdlTheorems.
Import SqlQueries Db SqlText Properties RunnerFacts Ddl.
Local Open Scope list_scope.

Lemma references_created_firstn (queries : list string) :
  forall (earlier : list (option string)) (k : nat),
    references_created earlier queries = true ->
    references_created earlier (firstn k queries) = true.
Proof.
  induction queries as [|q rest IH]; intros earlier k H.
  - now rewrite firstn_nil.
  - destruct k as [|k]; [reflexivity|].
    cbn [firstn references_created] in *.
    apply andb_true_iff in H. destruct H as [Hq Hrest].
    rewrite Hq. cbn. now apply IH.
Qed.

(** The check is not vacuous: with the fact table first it fails. *)
Example references_created_rejects_fact_table_first :
  references_created [] (songplay_table_create :: create_table_queries) = false.
Proof. vm_compute. reflexivity. Qed.

(** X8.  In every run of [create_tables], whatever the connection does, a
    CREATE TABLE statement is executed only after the statements creating
    the tables it REFERENCES: songplays comes after time, users, songs and
    artists. *)
Theorem create_tables_creates_referenced_first (S : Type)
    (conn : Connection S) (s : S) :
  references_created []
    (executed (calls (snd (CreateTables.create_tables conn (start s)))))
  = true.
Proof.
  destruct (RunnerTheorems.executed_is_prefix conn create_table_queries
              (CreateTables.create_tables conn) s (for_each_runs conn _))
    as (k & _ & Hk).
  rewrite Hk. apply references_created_firstn. vm_compute. reflexivity.
Qed.

End DdlTheorems.

(** ** More on the lifecycle tool *)

Module LifecycleTheorems.
Import Py Aws RedshiftIac IacProperties IacFacts IacChecks.
Local Open Scope list_scope.

(** X9.  [create_security_group] has two outcomes only: it returns the
    group object built from the GroupId of a creation call that answered,
    or it raises [UnboundLocalError].  An exception of the creation call,
    or a response without GroupId, never reaches the caller as it was. *)
Theorem create_security_group_outcomes (C : Type) (ec2_client : Ec2Client C)
    (ec2_resource : Ec2Resource C) (group_name : string) (w : World C) :
  (exists response c' group_id,
      Aws.create_security_group ec2_client
        "Authorise redshift cluster access" group_name (cloud w)
      = (Ok response, c')
      /\ getitem response "GroupId" = Ok group_id
      /\ fst (create_security_group ec2_client ec2_resource group_name w)
         = Ok {| id := group_id |})
  \/ fst (create_security_group ec2_client ec2_resource group_name w)
     = Raise (UnboundLocalError "security_group").
Proof.
  unfold create_security_group. run.
  repeat answer;
    solve [right; reflexivity
          | left; do 3 eexists; split; [reflexivity|];
            split; [eassumption | reflexivity]].
Qed.

(** X10.  [get_cluster_info] never raises.  Whatever the service answers,
    it returns (None, None), or the reported status with None when that
    status is not "available", or the reported status with the reported
    endpoint address when it is; a response that lacks one of the keys read
    gives (None, None). *)
Theorem get_cluster_info_outcomes (C : Type) (redshift : RedshiftClient C)
    (w : World C) :
  fst (get_cluster_info redshift w) = Ok (PNone, PNone)
  \/ exists response c' state,
       describe_clusters redshift "dwhCluster" (cloud w) = (Ok response, c')
       /\ reported_status response = Ok state
       /\ ((eq_str state "available" = false
            /\ fst (get_cluster_info redshift w) = Ok (state, PNone))
           \/ (eq_str state "available" = true
               /\ exists address,
                    reported_address response = Ok address
                    /\ fst (get_cluster_info redshift w) = Ok (state, address))).
Proof.
  unfold get_cluster_info. run.
  destruct (describe_clusters redshift "dwhCluster" (cloud w))
    as [[response|e] c'] eqn:Hdescribe; run; [|left; reflexivity].
  destruct (getitem response "Clusters") as [clusters|] eqn:Hclusters; run;
    [|left; reflexivity].
  destruct (getindex clusters 0) as [first|] eqn:Hfirst; run;
    [|left; reflexivity].
  destruct (getitem first "ClusterStatus") as [state|] eqn:Hstate; run;
    [|left; reflexivity].
  assert (Hreported : reported_status response = Ok state).
  { unfold reported_status. now rewrite Hclusters, Hfirst. }
  destruct (eq_str state "available") eqn:Havailable; run.
  - destruct (getitem first "Endpoint") as [endpoint|] eqn:Hendpoint; run;
      [|left; reflexivity].
    destruct (getitem endpoint "Address") as [address|] eqn:Haddress; run;
      [|left; reflexivity].
    right. exists response, c', state.
    split; [reflexivity|]. split; [exact Hreported|].
    right. split; [exact Havailable|]. exists address. split; [|reflexivity].
    unfold reported_address. now rewrite Hclusters, Hfirst, Hendpoint.
  - right. exists response, c', state.
    split; [reflexivity|]. split; [exact Hreported|].
    left. now split.
Qed.

(** X11.  [delete_security_group] never deletes more than one group: when
    the lookup by name lists several groups it deletes the first and leaves
    the others, and when it lists none or fails it deletes nothing. *)
Theorem delete_security_group_first_match (C : Type)
    (ec2_resource : Ec2Resource C) (group_name : string) (w : World C) :
  group_deletions (trace (delete_security_group ec2_resource group_name) w)
  = match security_groups_filter ec2_resource "group-name" [group_name]
            (cloud w) with
    | (Ok (first :: _), _) => [first]
    | _ => []
    end.
Proof.
  unfold trace, delete_security_group. run.
  repeat answer; tidy; rewrite skipn_added; reflexivity.
Qed.

(** Two groups carry the name: the first listed goes, the second stays. *)
Example delete_security_group_leaves_second :
  Account.groups
    (cloud (snd (delete_security_group Account.ec2_resource
                   default_group_name Scenarios.with_two_groups)))
  = [("sg-2c3d", default_group_name)].
Proof. vm_compute. reflexivity. Qed.

(** X12.  [create_redshift_cluster] never raises: it issues one
    [create_cluster] request, for the cluster CLUSTER_ID with the given
    role and security group, and an error of the service is only printed.
    The caller cannot tell a cluster that was requested from one that was
    refused. *)
Theorem create_redshift_cluster_swallows (C : Type) (s : Settings)
    (redshift : RedshiftClient C) (roleArn SecurityGroupID : pyval)
    (cluster_type node_type : string) (num_nodes : Z) (w : World C) :
  fst (create_redshift_cluster s redshift roleArn SecurityGroupID
         cluster_type node_type num_nodes w) = Ok tt
  /\ exists request,
       cluster_requests
         (trace (create_redshift_cluster s redshift roleArn SecurityGroupID
                   cluster_type node_type num_nodes) w) = [request]
       /\ ClusterIdentifier request = CLUSTER_ID s
       /\ IamRoles request = [roleArn]
       /\ VpcSecurityGroupIds request = [SecurityGroupID]
       /\ NumberOfNodes request = num_nodes.
Proof.
  unfold trace, create_redshift_cluster. run.
  repeat answer; (split; [reflexivity|]); tidy; rewrite skipn_added;
    eexists; repeat split.
Qed.

(** X13.  [create_iam_role] swallows only the error of [create_role]: when
    attaching the policy raises, that exception reaches the caller, after
    a swallowed creation error too, and the role is not read back. *)
Theorem create_iam_role_attach_error (C : Type) (iam : IamClient C)
    (iam_RoleName : string) (w : World C) (e : exn) (c2 : C) :
  attach_role_policy iam iam_RoleName s3_read_only_policy
    (snd (create_role iam "/" iam_RoleName
            "Allows Redshift clusters to call AWS services on your behalf."
            assume_role_policy_document (cloud w)))
  = (Raise e, c2) ->
  fst (create_iam_role iam iam_RoleName w) = Raise e
  /\ ~ In (Api (GetRole iam_RoleName))
          (trace (create_iam_role iam iam_RoleName) w).
Proof.
  unfold trace, create_iam_role. run.
  destruct (create_role iam "/" iam_RoleName _ _ (cloud w)) as [[r|e0] c1];
    run; intro Hattach; rewrite Hattach; run; tidy; rewrite skipn_added;
    (split; [reflexivity|]); cbn; intuition discriminate.
Qed.

(** Credentials without IAM permissions: creation is refused and printed,
    attaching is refused and raised. *)
Lemma create_iam_role_attach_error_witness :
  fst (create_iam_role Scenarios.denied_iam default_role_name Account.fresh)
    = Raise Scenarios.access_denied
  /\ ~ In (Api (GetRole default_role_name))
          (trace (create_iam_role Scenarios.denied_iam default_role_name)
                 Account.fresh).
Proof.
  eapply (create_iam_role_attach_error Account.Cloud Scenarios.denied_iam
            default_role_name Account.fresh).
  vm_compute. reflexivity.
Defined.

End LifecycleTheorems.

(** ** Strings and configuration files *)

Module PyFacts.
Import Py Aws IacChecks ConfigFile.
Local Open Scope list_scope.

Lemma lstrip_blank (s : string) : blank s = true -> lstrip s = "".
Proof.
  induction s as [|c s IH]; cbn; [reflexivity|].
  intro H. apply andb_true_iff in H. destruct H as [Hc Hs].
  rewrite Hc. now apply IH.
Qed.

Lemma strip_blank (s : string) : blank s = true -> strip s = "".
Proof.
  intro H. unfold strip. now rewrite (lstrip_blank s H).
Qed.

Lemma rstrip_idempotent (s : string) : rstrip (rstrip s) = rstrip s.
Proof.
  induction s as [|c s IH]; [reflexivity|].
  cbn [rstrip]. destruct (rstrip s) as [|a kept] eqn:Hs.
  - destruct (is_py_space c) eqn:Hc; [reflexivity|].
    cbn. now rewrite Hc.
  - cbn [rstrip] in *. now rewrite IH.
Qed.

Lemma lstrip_starts_clean (s : string) : starts_clean (lstrip s).
Proof.
  induction s as [|c s IH]; cbn; [exact I|].
  destruct (is_py_space c) eqn:Hc; [exact IH | exact Hc].
Qed.

Lemma lstrip_of_clean (s : string) : starts_clean s -> lstrip s = s.
Proof.
  destruct s as [|c s]; cbn; [reflexivity|]. now intros ->.
Qed.

Lemma rstrip_keeps_clean (s : string) :
  starts_clean s -> starts_clean (rstrip s).
Proof.
  destruct s as [|c s]; cbn; [trivial|]. intro Hc.
  destruct (rstrip s); [rewrite Hc|]; exact Hc.
Qed.

(** What [strip] returns has nothing left to strip. *)
Lemma strip_idempotent (s : string) : strip (strip s) = strip s.
Proof.
  unfold strip.
  rewrite (lstrip_of_clean (rstrip (lstrip s))).
  - apply rstrip_idempotent.
  - apply rstrip_keeps_clean, lstrip_starts_clean.
Qed.

Lemma truthy_nonempty (s : string) : truthy (Some s) = true -> s <> "".
Proof.
  cbn. intros H ->. discriminate H.
Qed.




End PyFacts.

(** ** The subcommands [init] and [status] *)

Module InitTheorems.
Import Py Aws RedshiftIac IacProperties IacFacts IacChecks ConfigFile PyFacts.
Local Open Scope list_scope.

Lemma get_public_ip_some (C : Type) (requests : Requests C)
    (w : World C) (address : string) :
  fst (get_public_ip requests w) = Ok (Some address) ->
  strip address = address
  /\ exists response c',
       requests_get requests "https://ifconfig.me" (cloud w) = (Ok response, c')
       /\ http_error response = false
       /\ address = strip (text response).
Proof.
  unfold get_public_ip, raise_for_status, http_error. run.
  repeat answer; intro H; try discriminate H.
  injection H as <-. split; [apply strip_idempotent|].
  do 2 eexists. split; [reflexivity|]. split; [assumption | reflexivity].
Qed.



(** X15.  An IP service that answers with an empty body or with white
    space only counts as a failed lookup, whatever its status: [init]
    raises the fatal exception and neither authorizes an ingress rule nor
    requests a cluster. *)
Theorem init_blank_address (C : Type) (s : Settings) (aws : Clients C)
    (w w1 w2 : World C) (iam_role : pyval) (sec_group : SecurityGroup)
    (response : Response) (c3 : C) :
  create_iam_role (iam aws) default_role_name w = (Ok iam_role, w1) ->
  create_security_group (ec2_client aws) (ec2_resource aws)
    default_group_name w1 = (Ok sec_group, w2) ->
  requests_get (requests aws) "https://ifconfig.me" (cloud w2)
    = (Ok response, c3) ->
  blank (text response) = true ->
  fst (init s aws w) = Raise (PyException "Failed to retrieve public IP address")
  /\ existsb opens_access (trace (init s aws) w) = false.
Proof.
  intros Hrole Hgroup Hget Hblank.
  assert (Hip : exists w3, get_public_ip (requests aws) w2 = (Ok None, w3)
                           \/ get_public_ip (requests aws) w2 = (Ok (Some ""), w3)).
  { unfold get_public_ip, raise_for_status, is_RequestException. run.
    rewrite Hget. run. rewrite (strip_blank _ Hblank).
    repeat answer; eexists; solve [left; reflexivity | right; reflexivity]. }
  destruct Hip as (w3 & Hip).
  assert (Hinit : init s aws w
            = (Raise (PyException "Failed to retrieve public IP address"), w3)).
  { unfold init. unfold bind at 1. rewrite Hrole.
    unfold bind at 1. rewrite Hgroup.
    unfold bind at 1. destruct Hip as [-> | ->]; reflexivity. }
  split; [now rewrite Hinit|].
  destruct (create_iam_role_quiet (iam aws) default_role_name w)
    as (l1 & Hl1 & Hq1).
  destruct (create_security_group_quiet (ec2_client aws) (ec2_resource aws)
              default_group_name w1) as (l2 & Hl2 & Hq2).
  destruct (get_public_ip_quiet (requests aws) w2) as (l3 & Hl3 & Hq3).
  rewrite Hrole in Hl1. rewrite Hgroup in Hl2. cbn [snd] in Hl1, Hl2.
  assert (Hlog3 : log w3 = log w2 ++ l3).
  { destruct Hip as [Hip | Hip]; rewrite Hip in Hl3; exact Hl3. }
  assert (Htrace : trace (init s aws) w = l1 ++ l2 ++ l3).
  { apply trace_of_app. rewrite Hinit. cbn [snd].
    now rewrite Hlog3, Hl2, Hl1, <- !app_assoc. }
  rewrite Htrace, !existsb_app. unfold quiet in *.
  now rewrite Hq1, Hq2, Hq3.
Qed.

(** The service answers 200 with a line break only. *)
Lemma init_blank_address_witness :
  fst (init Account.settings Account.clients (Scenarios.answering "
"))
    = Raise (PyException "Failed to retrieve public IP address")
  /\ existsb opens_access
       (trace (init Account.settings Account.clients) (Scenarios.answering "
")) = false.
Proof.
  eapply (init_blank_address Account.Cloud Account.settings Account.clients
            (Scenarios.answering "
"));
    vm_compute; reflexivity.
Defined.

End InitTheorems.

Module InitFacts.
Import Py Aws RedshiftIac IacProperties IacFacts IacChecks InitChecks PyFacts.
Local Open Scope list_scope.

Lemma init_unfold {C} (s : Settings) (aws : Clients C) :
  init s aws
  = bind (create_iam_role (iam aws) default_role_name) (fun iam_role =>
    bind (create_security_group (ec2_client aws) (ec2_resource aws)
            default_group_name) (fun sec_group =>
    bind (get_public_ip (requests aws)) (fun public_ip =>
    init_after_lookup s aws iam_role sec_group public_ip))).
Proof. reflexivity. Qed.

(** Quiet events hold no ingress rule and no cluster request. *)
Lemma quiet_nothing (q : list event) :
  quiet q ->
  ingress_rules q = [] /\ ingress_groups q = [] /\ cluster_requests q = []
  /\ forall b rest,
       cluster_after_ingress b (q ++ rest) = cluster_after_ingress b rest.
Proof.
  unfold quiet. induction q as [|e q IH]; intro H.
  - repeat split.
  - cbn [existsb] in H. apply orb_false_iff in H. destruct H as [He Hq].
    destruct (IH Hq) as (H1 & H2 & H3 & H4).
    destruct e as [line|seconds|c|name contents];
      try destruct c; cbn in He; try discriminate He;
      cbn; repeat split;
      first [exact H1 | exact H2 | exact H3 | intros; apply H4].
Qed.

Lemma quiet_events (s : Settings) (role : pyval) (q : list event) :
  quiet q -> init_events s role q.
Proof.
  intro Hq. destruct (quiet_nothing q Hq) as (H1 & H2 & H3 & H4).
  unfold init_events. rewrite H1, H3.
  specialize (H4 false []). rewrite app_nil_r in H4. cbn in H4.
  rewrite H4. cbn. repeat split; try constructor; lia.
Qed.

Lemma ingress_rules_app (a b : list event) :
  ingress_rules (a ++ b) = ingress_rules a ++ ingress_rules b.
Proof. apply flat_map_app. Qed.

Lemma ingress_groups_app (a b : list event) :
  ingress_groups (a ++ b) = ingress_groups a ++ ingress_groups b.
Proof. apply flat_map_app. Qed.

Lemma cluster_requests_app (a b : list event) :
  cluster_requests (a ++ b) = cluster_requests a ++ cluster_requests b.
Proof. apply flat_map_app. Qed.

Lemma events_after_quiet (s : Settings) (role : pyval) (q l : list event) :
  quiet q -> init_events s role l -> init_events s role (q ++ l).
Proof.
  intros Hq (R1 & R2 & R3 & R4 & R5).
  destruct (quiet_nothing q Hq) as (H1 & H2 & H3 & H4).
  unfold init_events, cluster_request_of in *.
  rewrite ingress_rules_app, cluster_requests_app, ingress_groups_app.
  rewrite H1, H2, H3, H4. cbn [app].
  repeat split; assumption.
Qed.

Lemma quiet_append (a b : list event) : quiet a -> quiet b -> quiet (a ++ b).
Proof.
  unfold quiet. intros Ha Hb. now rewrite existsb_app, Ha, Hb.
Qed.

(** The part of [init] that opens access, on all answers. *)
Lemma init_after_lookup_events {C} (s : Settings) (aws : Clients C)
    (iam_role : pyval) (sec_group : SecurityGroup)
    (public_ip : option string) (w : World C) :
  (forall ip, public_ip = Some ip -> strip ip = ip) ->
  exists new,
    log (snd (init_after_lookup s aws iam_role sec_group public_ip w))
    = log w ++ new
    /\ init_events s iam_role new.
Proof.
  intro Htrim.
  unfold init_after_lookup, create_redshift_cluster, config_set, config_write.
  destruct public_ip as [ip|];
    [destruct (truthy (Some ip)) eqn:Hip | change (truthy None) with false];
    run; repeat answer; extends; unfold init_events; cbn;
    (split; [|split; [lia|split; [reflexivity|split; [lia|]]]]);
    repeat first
      [ apply Forall_nil
      | apply Forall_cons
      | (unfold single_host_rule; cbn;
         split; [reflexivity|]; split; [reflexivity|]; split; [reflexivity|];
         exists ip; split; [exact (truthy_nonempty ip Hip)|];
         split; [exact (Htrim ip eq_refl) | reflexivity])
      | (unfold cluster_request_of; cbn;
         repeat (split; [reflexivity|]);
         exists sec_group; split; [reflexivity | left; reflexivity]) ].
Qed.

(** Every run of [init]. *)
Lemma init_runs {C} (s : Settings) (aws : Clients C) (w : World C) :
  init_events s (returned_role aws w) (trace (init s aws) w).
Proof.
  unfold returned_role.
  destruct (create_iam_role_quiet (iam aws) default_role_name w)
    as (l1 & Hl1 & Hq1).
  rewrite init_unfold. unfold trace, bind.
  destruct (create_iam_role (iam aws) default_role_name w)
    as [[iam_role|e] w1]; cbn [fst snd] in *.
  2:{ rewrite Hl1, skipn_added. now apply quiet_events. }
  destruct (create_security_group_quiet (ec2_client aws) (ec2_resource aws)
              default_group_name w1) as (l2 & Hl2 & Hq2).
  destruct (create_security_group (ec2_client aws) (ec2_resource aws)
              default_group_name w1) as [[sec_group|e] w2]; cbn [fst snd] in *.
  2:{ rewrite Hl2, Hl1, <- app_assoc, skipn_added.
      apply quiet_events. now apply quiet_append. }
  destruct (get_public_ip_quiet (requests aws) w2) as (l3 & Hl3 & Hq3).
  pose proof (InitTheorems.get_public_ip_some C (requests aws) w2) as Htrim.
  destruct (get_public_ip (requests aws) w2) as [[public_ip|e] w3];
    cbn [fst snd] in *.
  2:{ rewrite Hl3, Hl2, Hl1, <- !app_assoc, skipn_added.
      apply quiet_events. now repeat apply quiet_append. }
  destruct (init_after_lookup_events s aws iam_role sec_group public_ip w3)
    as (l4 & Hl4 & Hev).
  { intros ip ->. now destruct (Htrim ip eq_refl). }
  rewrite Hl4, Hl3, Hl2, Hl1, <- !app_assoc, skipn_added.
  rewrite !app_assoc. apply events_after_quiet; [|exact Hev].
  now repeat apply quiet_append.
Qed.

End InitFacts.

Module SubcommandFacts.
Import Py Aws RedshiftIac IacProperties IacFacts IacChecks InitChecks
       InitFacts ConfigFile PyFacts.
Local Open Scope list_scope.

Section Untouched.
Context {C : Type}.




Lemma get_cluster_info_untouched (redshift : RedshiftClient C) :
  untouched (get_cluster_info redshift).
Proof.
  intro w. unfold get_cluster_info. run.
  repeat answer; (split; [reflexivity|]); extends; reflexivity.
Qed.




End Untouched.

End SubcommandFacts.

Module SubcommandTheorems.
Import Py Aws RedshiftIac IacProperties IacFacts IacChecks InitChecks
       InitFacts SubcommandFacts ConfigFile PyFacts.
Local Open Scope list_scope.

(** X16.  Whatever the services answer, [init] asks for at most one ingress
    rule, and that rule admits a single address (the trimmed, non-empty
    answer of the IP service, with "/32"), over TCP, on the database port
    alone. *)
Theorem init_ingress_is_single_host (C : Type) (s : Settings)
    (aws : Clients C) (w : World C) :
  Forall (single_host_rule s) (ingress_rules (trace (init s aws) w))
  /\ List.length (ingress_rules (trace (init s aws) w)) <= 1.
Proof.
  destruct (init_runs s aws w) as (H1 & H2 & _). now split.
Qed.




(** X19.  Unless the cluster is reported available, [status] changes
    nothing: it returns, the configuration is as it was and no file is
    written. *)
Theorem status_waits_for_available (C : Type) (aws : Clients C)
    (w : World C) (state endpoint : pyval) :
  fst (get_cluster_info (redshift aws) w) = Ok (state, endpoint) ->
  eq_str state "available" = false ->
  fst (status aws w) = Ok tt
  /\ config (snd (status aws w)) = config w
  /\ written (trace (status aws) w) = [].
Proof.
  intros Hinfo Hstate.
  destruct (get_cluster_info_untouched (redshift aws) w)
    as (Hcfg & new & Hlog & Hnew).
  unfold trace, status, bind.
  destruct (get_cluster_info (redshift aws) w) as [[info|e] w1];
    cbn [fst snd] in *; [|discriminate Hinfo].
  injection Hinfo as ->. rewrite Hstate. cbn [ret fst snd].
  repeat split; [exact Hcfg|]. now rewrite Hlog, skipn_added.
Qed.

Lemma status_waits_for_available_witness :
  fst (status Account.clients (Account.with_cluster "creating" None)) = Ok tt
  /\ config (snd (status Account.clients (Account.with_cluster "creating" None)))
     = config (Account.with_cluster "creating" None)
  /\ written (trace (status Account.clients)
                    (Account.with_cluster "creating" None)) = [].
Proof.
  apply (status_waits_for_available Account.Cloud Account.clients
           (Account.with_cluster "creating" None) (PStr "creating") PNone);
    vm_compute; reflexivity.
Defined.





End SubcommandTheorems.
